(** * hl_seed_trade.py: the Hyperliquid seed-trade helper

    A shallow embedding of
    [execution-kernel/crates/agents/perp-trader/scripts/hl_seed_trade.py]:
    the JSON values the exchange client hands back, the Python operations the
    script applies to them ([.get], [in], subscripting, truthiness, [str]),
    the three actions with their [try]/[except] blocks and calls to the
    client library, and the response classifier [parse_order_result]. *)

From Stdlib Require Import String Ascii List ZArith NArith Bool Lia.
From Stdlib Require Import Numbers.DecimalString.
Import ListNotations.
Local Open Scope list_scope.
Local Open Scope string_scope.

Set Warnings "-register-all".

(** ** Python values

    What [response.json()] can produce, and what the script builds itself.
    A [str] is a [string] whose characters are code points below 256.
    A [dict] keeps insertion order (which [str] shows), hence an association
    list; its keys are strings, as in every JSON object.  A [float] is carried
    as the text [repr] gives for it: the script never computes with one. *)

Inductive pyval : Type :=
| PNone
| PBool (b : bool)
| PInt (n : Z)
| PFloat (repr : string)
| PStr (s : string)
| PList (items : list pyval)
| PDict (entries : list (string * pyval)).

Definition dict := list (string * pyval).

(** [type(v).__name__] *)
Definition type_name (v : pyval) : string :=
  match v with
  | PNone => "NoneType"
  | PBool _ => "bool"
  | PInt _ => "int"
  | PFloat _ => "float"
  | PStr _ => "str"
  | PList _ => "list"
  | PDict _ => "dict"
  end.

(** *** Characters *)

Definition dquote : ascii := Ascii.ascii_of_nat 34.
Definition squote : ascii := Ascii.ascii_of_nat 39.
Definition backslash : ascii := Ascii.ascii_of_nat 92.

Definition str1 (c : ascii) : string := String c EmptyString.

Definition hex_digit (n : nat) : ascii :=
  if Nat.ltb n 10 then ascii_of_nat (48 + n) else ascii_of_nat (87 + n).

(** [\xNN], two lower-case hexadecimal digits. *)
Definition hex_escape (c : ascii) : string :=
  let n := nat_of_ascii c in
  String backslash
    (String "x" (String (hex_digit (Nat.div n 16)) (str1 (hex_digit (Nat.modulo n 16))))).

(** [str.isprintable] on one code point below 256: the ASCII range
    0x20..0x7e, and 0xa1..0xff without the soft hyphen 0xad. *)
Definition isprintable (c : ascii) : bool :=
  let n := nat_of_ascii c in
  (Nat.leb 32 n && Nat.leb n 126) || (Nat.leb 161 n && negb (Nat.eqb n 173)).

Fixpoint contains_char (c : ascii) (s : string) : bool :=
  match s with
  | EmptyString => false
  | String a s' => Ascii.eqb a c || contains_char c s'
  end.

(** The quote [repr] picks for a [str]: single, unless the text holds a
    single quote and no double quote. *)
Definition repr_quote (s : string) : ascii :=
  if contains_char squote s && negb (contains_char dquote s) then dquote else squote.

Definition repr_char (quote c : ascii) : string :=
  if Ascii.eqb c quote || Ascii.eqb c backslash then String backslash (str1 c)
  else if Ascii.eqb c (ascii_of_nat 9) then String backslash "t"
  else if Ascii.eqb c (ascii_of_nat 10) then String backslash "n"
  else if Ascii.eqb c (ascii_of_nat 13) then String backslash "r"
  else if isprintable c then str1 c
  else hex_escape c.

Fixpoint repr_chars (quote : ascii) (s : string) : string :=
  match s with
  | EmptyString => EmptyString
  | String c s' => repr_char quote c ++ repr_chars quote s'
  end.

(** [repr(s)] for a [str]. *)
Definition repr_str (s : string) : string :=
  let q := repr_quote s in
  String q (repr_chars q s ++ str1 q).

(** [repr(n)] for an [int]. *)
Definition repr_int (n : Z) : string := NilZero.string_of_int (Z.to_int n).

(** [", ".join(parts)] *)
Fixpoint join_comma (parts : list string) : string :=
  match parts with
  | [] => EmptyString
  | [p] => p
  | p :: rest => p ++ ", " ++ join_comma rest
  end.

(** [repr(v)]; containers show the [repr] of what they hold. *)
Fixpoint py_repr (v : pyval) : string :=
  match v with
  | PNone => "None"
  | PBool true => "True"
  | PBool false => "False"
  | PInt n => repr_int n
  | PFloat r => r
  | PStr s => repr_str s
  | PList items => "[" ++ join_comma (map py_repr items) ++ "]"
  | PDict entries =>
      "{" ++ join_comma (map (fun kv => repr_str (fst kv) ++ ": " ++ py_repr (snd kv)) entries)
          ++ "}"
  end.

(** [str(v)]: the text itself for a [str], [repr(v)] otherwise. *)
Definition py_str (v : pyval) : string :=
  match v with
  | PStr s => s
  | _ => py_repr v
  end.

(** ** Exceptions

    An instance of [Exception]: its class and what [str(e)] gives.  The
    [except Exception] clauses of the script catch every one of them. *)

Record exn : Type := Raise { exn_class : string; exn_str : string }.

(** What an expression gives: an exception raised, or a value. *)
Definition outcome (A : Type) : Type := (exn + A)%type.

Definition bind_outcome {A B : Type} (r : outcome A) (k : A -> outcome B) : outcome B :=
  match r with
  | inl e => inl e
  | inr a => k a
  end.

Declare Scope py_scope.
Delimit Scope py_scope with py.
Notation "x <- r ;; k" := (bind_outcome r (fun x => k))
  (at level 61, r at next level, right associativity) : py_scope.

(** The errors the interpreter raises on the paths of this script (message
    texts of CPython 3.11 to 3.13). *)
Definition no_attribute (v : pyval) (attr : string) : exn :=
  Raise "AttributeError"
        ("'" ++ type_name v ++ "' object has no attribute '" ++ attr ++ "'").

Definition not_iterable (v : pyval) : exn :=
  Raise "TypeError" ("argument of type '" ++ type_name v ++ "' is not iterable").

Definition not_subscriptable (v : pyval) : exn :=
  Raise "TypeError" ("'" ++ type_name v ++ "' object is not subscriptable").

(** ** Operations on values *)

(** Lookup in a [dict], first (and, in a real [dict], only) entry of the key. *)
Fixpoint lookup (k : string) (d : dict) : option pyval :=
  match d with
  | [] => None
  | (k', v) :: d' => if String.eqb k' k then Some v else lookup k d'
  end.

(** [v.get(k, default)]: only a [dict] has the method. *)
Definition py_get (v : pyval) (k : string) (default : pyval) : outcome pyval :=
  match v with
  | PDict d => inr (match lookup k d with Some x => x | None => default end)
  | _ => inl (no_attribute v "get")
  end.

(** [v == s] for a [str] literal [s]: only that very text is equal to it. *)
Definition py_eq_str (v : pyval) (s : string) : bool :=
  match v with
  | PStr t => String.eqb t s
  | _ => false
  end.

(** [bool(v)] *)
Definition truthy (v : pyval) : bool :=
  match v with
  | PNone => false
  | PBool b => b
  | PInt n => negb (Z.eqb n 0)
  | PFloat r => negb (String.eqb r "0.0" || String.eqb r "-0.0")
  | PStr s => negb (String.eqb s EmptyString)
  | PList items => match items with [] => false | _ => true end
  | PDict entries => match entries with [] => false | _ => true end
  end.

(** [v[0]]; a [dict] made from JSON has [str] keys only, so never a key 0. *)
Definition py_first (v : pyval) : outcome pyval :=
  match v with
  | PList (x :: _) => inr x
  | PList [] => inl (Raise "IndexError" "list index out of range")
  | PStr (String c _) => inr (PStr (str1 c))
  | PStr EmptyString => inl (Raise "IndexError" "string index out of range")
  | PDict _ => inl (Raise "KeyError" "0")
  | _ => inl (not_subscriptable v)
  end.

(** [sub in s] on two [str]. *)
Fixpoint substring_of (sub s : string) : bool :=
  String.prefix sub s
  || match s with
     | EmptyString => false
     | String _ s' => substring_of sub s'
     end.

(** [k in v] for a [str] literal [k]: a key of a [dict], an item of a [list],
    a piece of a [str]. *)
Definition py_contains (v : pyval) (k : string) : outcome bool :=
  match v with
  | PDict d => inr (match lookup k d with Some _ => true | None => false end)
  | PList items => inr (existsb (fun x => py_eq_str x k) items)
  | PStr s => inr (substring_of k s)
  | _ => inl (not_iterable v)
  end.

(** [v[k]] for a [str] literal [k]. *)
Definition py_item (v : pyval) (k : string) : outcome pyval :=
  match v with
  | PDict d =>
      match lookup k d with
      | Some x => inr x
      | None => inl (Raise "KeyError" (repr_str k))
      end
  | PStr _ => inl (Raise "TypeError" "string indices must be integers, not 'str'")
  | PList _ => inl (Raise "TypeError" "list indices must be integers or slices, not str")
  | _ => inl (not_subscriptable v)
  end.

(** [statuses and k in statuses[0]], as the condition of an [if]. *)
Definition first_has (statuses : pyval) (k : string) : outcome bool :=
  if truthy statuses then (first <- py_first statuses ;; py_contains first k)%py
  else inr false.

(** ** The response classifier *)

(** Lines 99 and 100: the per-order status list of an order response. *)
Definition statuses_of (order_result : pyval) : outcome pyval :=
  (response <- py_get order_result "response" (PDict []) ;;
   data <- py_get response "data" (PDict []) ;;
   py_get data "statuses" (PList []))%py.

Definition parse_order_result (order_result : pyval) : outcome pyval :=
  (status <- py_get order_result "status" PNone ;;
   if py_eq_str status "ok" then
     statuses <- statuses_of order_result ;;
     is_filled <- first_has statuses "filled" ;;
     if is_filled then
       first <- py_first statuses ;;
       fill <- py_item first "filled" ;;
       avg_price <- py_get fill "avgPx" (PStr "0") ;;
       total_size <- py_get fill "totalSz" (PStr "0") ;;
       inr (PDict [("status", PStr "filled");
                   ("avg_price", avg_price);
                   ("total_size", total_size)])
     else
       is_resting <- first_has statuses "resting" ;;
       if is_resting then
         first <- py_first statuses ;;
         inr (PDict [("status", PStr "resting"); ("detail", PStr (py_str first))])
       else
         is_error <- first_has statuses "error" ;;
         if is_error then
           first <- py_first statuses ;;
           detail <- py_item first "error" ;;
           inr (PDict [("status", PStr "error");
                       ("step", PStr "order_rejected");
                       ("detail", detail)])
         else
           inr (PDict [("status", PStr "no_fill"); ("detail", PStr (py_str statuses))])
   else
     inr (PDict [("status", PStr "error");
                 ("step", PStr "place_order");
                 ("detail", PStr (py_str order_result))]))%py.

(** ** The client library

    The script reaches the exchange only through [eth_account] and the
    [hyperliquid] client.  Each use of them is a [call]; what a call answers
    (a value, or an exception) is up to the [world], which sees the calls made
    before.  The objects the constructors return stay opaque and are not
    tracked: a method call is a [call] of its own. *)

Inductive call : Type :=
| import_Exchange                      (* from hyperliquid.exchange import Exchange *)
| Account_from_key (key : string)      (* Account.from_key(key) *)
| Exchange_init (hl_url : string)      (* Exchange(account, hl_url) *)
| update_leverage (leverage : Z) (name : string) (is_cross : bool)
| order (name : string) (is_buy : bool) (sz limit_px : string) (order_type : pyval).

Definition event : Type := (call * outcome pyval)%type.
Definition trace : Type := list event.
Definition world : Type := trace -> call -> outcome pyval.

(** A run threads the trace of the calls made so far, and ends in a value or
    in an exception. *)
Definition M (A : Type) : Type := world -> trace -> outcome A * trace.

Definition ret {A : Type} (a : A) : M A := fun _ tr => (inr a, tr).

Definition bind {A B : Type} (m : M A) (k : A -> M B) : M B :=
  fun w tr =>
    match m w tr with
    | (inl e, tr') => (inl e, tr')
    | (inr a, tr') => k a w tr'
    end.

Definition lift {A : Type} (r : outcome A) : M A := fun _ tr => (r, tr).

Definition perform (c : call) : M pyval :=
  fun w tr => let answer := w tr c in (answer, (tr ++ [(c, answer)])%list).

(** [try: body except Exception as e: handler e] *)
Definition try_except {A : Type} (body : M A) (handler : exn -> M A) : M A :=
  fun w tr =>
    match body w tr with
    | (inl e, tr') => handler e w tr'
    | (inr a, tr') => (inr a, tr')
    end.

Declare Scope action_scope.
Delimit Scope action_scope with action.
Notation "x <- m ;; k" := (bind m (fun x => k))
  (at level 61, m at next level, right associativity) : action_scope.

(** The whole run of an action, from the empty trace. *)
Definition run {A : Type} (m : M A) (w : world) : outcome A * trace := m w [].

(** ** Command line *)

(** The namespace [parse_args] returns.  [size] and [price] are floats, kept
    as their text like a [PFloat]: the script only hands them on. *)
Record Args : Type := {
  action : string;
  key : string;
  hl_url : string;
  asset : string;
  leverage : Z;
  is_buy : bool;
  size : string;
  price : string
}.

(** [str.lower] on one code point below 256: A..Z, and the capital letters
    0xc0..0xde of Latin-1 (0xd7 is the multiplication sign). *)
Definition lower_char (c : ascii) : ascii :=
  let n := nat_of_ascii c in
  if (Nat.leb 65 n && Nat.leb n 90)
     || (Nat.leb 192 n && Nat.leb n 222 && negb (Nat.eqb n 215))
  then ascii_of_nat (n + 32) else c.

Fixpoint lower (s : string) : string :=
  match s with
  | EmptyString => EmptyString
  | String c s' => String (lower_char c) (lower s')
  end.

(** [type=lambda x: x.lower() == "true"] of [--is-buy]. *)
Definition is_buy_type (x : string) : bool := String.eqb (lower x) "true".

(** [--is-buy]: [default=True] when the option is not given, else the
    [type] function applied to its text. *)
Definition parse_is_buy (given : option string) : bool :=
  match given with
  | None => true
  | Some x => is_buy_type x
  end.

(** ** The actions *)

Definition make_exchange (key hl_url : string) : M pyval :=
  (_ <- perform import_Exchange ;;
   account <- perform (Account_from_key key) ;;
   perform (Exchange_init hl_url))%action.

(** [{"limit": {"tif": "Ioc"}}] *)
Definition ioc : pyval := PDict [("limit", PDict [("tif", PStr "Ioc")])].

Definition do_set_leverage (args : Args) : M pyval :=
  try_except
    (exchange <- make_exchange args.(key) args.(hl_url) ;;
     result <- perform (update_leverage args.(leverage) args.(asset) true) ;;
     status <- lift (py_get result "status" PNone) ;;
     if py_eq_str status "ok" then
       ret (PDict [("status", PStr "ok")])
     else
       ret (PDict [("status", PStr "error"); ("detail", PStr (py_str result))]))%action
    (fun e => ret (PDict [("status", PStr "error"); ("detail", PStr (exn_str e))])).

Definition do_seed_trade (args : Args) : M pyval :=
  try_except
    (exchange <- make_exchange args.(key) args.(hl_url) ;;
     lev_result <- perform (update_leverage args.(leverage) args.(asset) true) ;;
     status <- lift (py_get lev_result "status" PNone) ;;
     if negb (py_eq_str status "ok") then
       ret (PDict [("status", PStr "error");
                   ("step", PStr "set_leverage");
                   ("detail", PStr (py_str lev_result))])
     else
       order_result <- perform (order args.(asset) args.(is_buy) args.(size) args.(price) ioc) ;;
       lift (parse_order_result order_result))%action
    (fun e => ret (PDict [("status", PStr "error");
                          ("step", PStr "exception");
                          ("detail", PStr (exn_str e))])).

Definition do_close_position (args : Args) : M pyval :=
  try_except
    (exchange <- make_exchange args.(key) args.(hl_url) ;;
     order_result <- perform (order args.(asset) args.(is_buy) args.(size) args.(price) ioc) ;;
     lift (parse_order_result order_result))%action
    (fun e => ret (PDict [("status", PStr "error");
                          ("step", PStr "exception");
                          ("detail", PStr (exn_str e))])).

(** The dispatch of [main] on [args.action]. *)
Definition dispatch (args : Args) : M pyval :=
  if String.eqb args.(action) "set_leverage" then do_set_leverage args
  else if String.eqb args.(action) "seed_trade" then do_seed_trade args
  else if String.eqb args.(action) "close_position" then do_close_position args
  else ret (PDict [("status", PStr "error");
                   ("detail", PStr ("Unknown action: " ++ args.(action)))]).

(** ** Reading a result *)

(** The five outcomes of the classifier, read off the [status] and [step]
    fields of what it returns. *)
Inductive verdict : Type :=
| Filled | Resting | OrderRejected | NoFill | PlaceOrderError.

Definition verdict_of (result : pyval) : option verdict :=
  match result with
  | PDict d =>
      match lookup "status" d, lookup "step" d with
      | Some (PStr "filled"), None => Some Filled
      | Some (PStr "resting"), None => Some Resting
      | Some (PStr "no_fill"), None => Some NoFill
      | Some (PStr "error"), Some (PStr "order_rejected") => Some OrderRejected
      | Some (PStr "error"), Some (PStr "place_order") => Some PlaceOrderError
      | _, _ => None
      end
  | _ => None
  end.

(** The verdict of a run of the classifier; an exception has none. *)
Definition classify (order_result : pyval) : outcome (option verdict) :=
  (r <- parse_order_result order_result ;; inr (verdict_of r))%py.

Definition is_order (c : call) : bool :=
  match c with
  | order _ _ _ _ _ => true
  | _ => false
  end.

(** ** Sample responses *)

(** A well-formed order response around a per-order status list. *)
Definition ok_response (statuses : list pyval) : pyval :=
  PDict [("status", PStr "ok");
         ("response", PDict [("type", PStr "order");
                             ("data", PDict [("statuses", PList statuses)])])].

Definition filled_entry : pyval :=
  PDict [("filled", PDict [("avgPx", PStr "67010.5"); ("totalSz", PStr "0.001")])].

Definition rejected_entry : pyval :=
  PDict [("error", PStr "Order could not be fully filled")].

Definition invalid_leverage : pyval :=
  PDict [("status", PStr "err"); ("response", PStr "Invalid leverage")].

(** A sample command line and three worlds: one where the exchange turns the
    leverage update down, one where it fills the order, one where the key is
    refused. *)
Definition seed_args : Args :=
  {| action := "seed_trade"; key := "0xabc"; hl_url := "https://api.hyperliquid.xyz";
     asset := "BTC"; leverage := 5; is_buy := true; size := "0.001"; price := "67000.0" |}.

Definition refusing_world : world := fun _ c =>
  match c with
  | update_leverage _ _ _ => inr invalid_leverage
  | order _ _ _ _ _ => inr (ok_response [filled_entry])
  | _ => inr PNone
  end.

Definition filling_world : world := fun _ c =>
  match c with
  | update_leverage _ _ _ => inr (PDict [("status", PStr "ok")])
  | order _ _ _ _ _ =>
      inr (PDict [("status", PStr "ok");
                  ("response", PDict [("data", PDict [("statuses", PList [filled_entry])])])])
  | _ => inr PNone
  end.

Definition bad_key_world : world := fun _ c =>
  match c with
  | Account_from_key _ => inl (Raise "ValueError" "bad key")
  | _ => inr PNone
  end.

(** ** Vocabulary of the statements *)

(** A piece of text occurring inside another. *)
Definition occurs_in (piece text : string) : Prop :=
  exists before after, text = before ++ piece ++ after.

(** An action catches what the client library raises: every run returns a
    value, and when a call raised [e] that value is [report e]. *)
Definition catches (act : Args -> M pyval) (report : exn -> pyval) : Prop :=
  forall (w : world) (args : Args) (r : outcome pyval) (tr : trace),
    run (act args) w = (r, tr) ->
    (exists v, r = inr v)
    /\ forall c e, In (c, inl e) tr -> r = inr (report e).

(** The capital of a small ASCII letter. *)
Definition capital (l : ascii) : ascii := ascii_of_nat (nat_of_ascii l - 32).

(** [x] is [word], a text of small ASCII letters, in some letter case. *)
Fixpoint in_any_case (word x : string) : bool :=
  match word, x with
  | EmptyString, EmptyString => true
  | String l word', String c x' =>
      (Ascii.eqb c l || Ascii.eqb c (capital l)) && in_any_case word' x'
  | _, _ => false
  end.

Definition small_letter (l : ascii) : bool :=
  Nat.leb 97 (nat_of_ascii l) && Nat.leb (nat_of_ascii l) 122.

Fixpoint small_letters (word : string) : bool :=
  match word with
  | EmptyString => true
  | String l word' => small_letter l && small_letters word'
  end.

(** A property of characters, tried on each of the 256 of them. *)
Definition every_char (P : ascii -> bool) : bool :=
  forallb (fun n => P (ascii_of_nat n)) (seq 0 256).

(** ** The output line

    [main] ends with [print(json.dumps(result))]: the text of [json.dumps]
    with its defaults ([ensure_ascii], separators [", "] and [": "]), and the
    newline [print] adds. *)

Definition newline : ascii := ascii_of_nat 10.

(** [\u00NN], as [json] writes a code point below 256 that is not printable
    ASCII. *)
Definition json_u_escape (c : ascii) : string :=
  let n := nat_of_ascii c in
  String backslash
    (String "u" (String "0" (String "0"
       (String (hex_digit (Nat.div n 16)) (str1 (hex_digit (Nat.modulo n 16))))))).

Definition json_char (c : ascii) : string :=
  let n := nat_of_ascii c in
  if Ascii.eqb c dquote then String backslash (str1 dquote)
  else if Ascii.eqb c backslash then String backslash (str1 backslash)
  else if Nat.eqb n 10 then String backslash "n"
  else if Nat.eqb n 13 then String backslash "r"
  else if Nat.eqb n 9 then String backslash "t"
  else if Nat.eqb n 8 then String backslash "b"
  else if Nat.eqb n 12 then String backslash "f"
  else if Nat.leb 32 n && Nat.leb n 126 then str1 c
  else json_u_escape c.

Fixpoint json_chars (s : string) : string :=
  match s with
  | EmptyString => EmptyString
  | String c s' => json_char c ++ json_chars s'
  end.

Definition json_string (s : string) : string :=
  String dquote (json_chars s ++ str1 dquote).

(** A float is written with [repr], but for the three that JSON has no
    syntax for. *)
Definition json_float (r : string) : string :=
  if String.eqb r "nan" then "NaN"
  else if String.eqb r "inf" then "Infinity"
  else if String.eqb r "-inf" then "-Infinity"
  else r.

Fixpoint json_dumps (v : pyval) : string :=
  match v with
  | PNone => "null"
  | PBool true => "true"
  | PBool false => "false"
  | PInt n => repr_int n
  | PFloat r => json_float r
  | PStr s => json_string s
  | PList items => "[" ++ join_comma (map json_dumps items) ++ "]"
  | PDict entries =>
      "{" ++ join_comma (map (fun kv => json_string (fst kv) ++ ": " ++ json_dumps (snd kv))
                             entries)
          ++ "}"
  end.

(** [main] from line 131 on, the namespace being parsed: what goes to the
    standard output. *)
Definition main_output (args : Args) : M string :=
  (result <- dispatch args ;; ret (json_dumps result ++ str1 newline))%action.

(** Printable ASCII, 0x20 to 0x7e. *)
Definition printable_char (c : ascii) : bool :=
  Nat.leb 32 (nat_of_ascii c) && Nat.leb (nat_of_ascii c) 126.

Fixpoint printable (s : string) : bool :=
  match s with
  | EmptyString => true
  | String c s' => printable_char c && printable s'
  end.

(** The text of every float inside a value is printable ASCII, as a [repr]
    of a float is. *)
Fixpoint floats_printable (v : pyval) : bool :=
  match v with
  | PFloat r => printable r
  | PList items => forallb floats_printable items
  | PDict entries => forallb (fun kv => floats_printable (snd kv)) entries
  | _ => true
  end.

(** A world whose answers hold floats with a printable text only. *)
Definition tidy_world (w : world) : Prop :=
  forall tr c v, w tr c = inr v -> floats_printable v = true.

(** ** Kinds of calls and fields of results *)

Definition is_leverage (c : call) : bool :=
  match c with
  | update_leverage _ _ _ => true
  | _ => false
  end.

(** The calls that reach the exchange for the account. *)
Definition is_remote (c : call) : bool := is_leverage c || is_order c.

(** The calls of [make_exchange]. *)
Definition is_construction (c : call) : bool := negb (is_remote c).

(** The text under a key of a result, when there is one. *)
Definition field (k : string) (result : pyval) : option string :=
  match result with
  | PDict d =>
      match lookup k d with
      | Some (PStr s) => Some s
      | _ => None
      end
  | _ => None
  end.

Definition has_key (k : string) (result : pyval) : bool :=
  match result with
  | PDict d => match lookup k d with Some _ => true | None => false end
  | _ => false
  end.

(** What [except Exception as e] of [seed_trade] and [close_position]
    returns. *)
Definition exception_result (e : exn) : pyval :=
  PDict [("status", PStr "error"); ("step", PStr "exception"); ("detail", PStr (exn_str e))].

(** A world where the order is answered with a [null] first status entry. *)
Definition null_entry_world : world := fun _ c =>
  match c with
  | update_leverage _ _ _ => inr (PDict [("status", PStr "ok")])
  | order _ _ _ _ _ => inr (ok_response [PNone])
  | _ => inr PNone
  end.

(** A world where the leverage update answers a JSON array. *)
Definition array_world : world := fun _ c =>
  match c with
  | update_leverage _ _ _ => inr (PList [])
  | _ => inr PNone
  end.

(** The values the [status] and [step] fields of a result take. *)
Definition statuses_allowed : list string := ["ok"; "error"; "filled"; "resting"; "no_fill"].

Definition steps_allowed : list string :=
  ["set_leverage"; "place_order"; "order_rejected"; "exception"].

(** A result the caller can read: a [dict] with a known [status], and when it
    has a [step], an error with a known step. *)
Definition in_schema (result : pyval) : Prop :=
  (exists s, field "status" result = Some s /\ In s statuses_allowed)
  /\ (has_key "step" result = true ->
      field "status" result = Some "error"
      /\ exists st, field "step" result = Some st /\ In st steps_allowed).

(** * Properties *)

(** ** Basic equations *)

Lemma py_get_dict (d : dict) (k : string) (default : pyval) :
  py_get (PDict d) k default
  = inr (match lookup k d with Some x => x | None => default end).
Proof. reflexivity. Qed.

Lemma first_has_cons (x : pyval) (rest : list pyval) (k : string) :
  first_has (PList (x :: rest)) k = py_contains x k.
Proof. reflexivity. Qed.

Lemma first_has_nil (k : string) : first_has (PList []) k = inr false.
Proof. reflexivity. Qed.

Lemma py_contains_dict (e : dict) (k : string) :
  py_contains (PDict e) k = inr (match lookup k e with Some _ => true | None => false end).
Proof. reflexivity. Qed.

(** The status list sits under ["response"], ["data"], ["statuses"]. *)
Lemma statuses_of_path (d response data : dict) (statuses : pyval) :
  lookup "response" d = Some (PDict response) ->
  lookup "data" response = Some (PDict data) ->
  lookup "statuses" data = Some statuses ->
  statuses_of (PDict d) = inr statuses.
Proof.
  intros Hr Hd Hs. unfold statuses_of.
  rewrite py_get_dict, Hr. cbn [bind_outcome].
  rewrite py_get_dict, Hd. cbn [bind_outcome].
  rewrite py_get_dict, Hs. reflexivity.
Qed.

(** Only the text ["ok"] passes the test [== "ok"]. *)
Lemma py_eq_str_ok (v : pyval) : py_eq_str v "ok" = true <-> v = PStr "ok".
Proof.
  destruct v; simpl; try (split; [discriminate | intros H; discriminate H]).
  rewrite String.eqb_eq. split; [intros -> | intros [= ->]]; reflexivity.
Qed.

(** Where the interpreter raises: a response that is no [dict], a level
    that is no [dict], a first entry that cannot be searched. *)
Example parse_order_result_of_list :
  parse_order_result (PList [])
  = inl (Raise "AttributeError" "'list' object has no attribute 'get'").
Proof. reflexivity. Qed.

Example parse_order_result_text_response :
  parse_order_result (PDict [("status", PStr "ok"); ("response", PStr "queued")])
  = inl (Raise "AttributeError" "'str' object has no attribute 'get'").
Proof. reflexivity. Qed.

Example parse_order_result_number_entry :
  parse_order_result (ok_response [PInt 3])
  = inl (Raise "TypeError" "argument of type 'int' is not iterable").
Proof. reflexivity. Qed.

Example parse_order_result_resting :
  parse_order_result (ok_response [PDict [("resting", PDict [("oid", PInt 77738308)])]])
  = inr (PDict [("status", PStr "resting");
                ("detail", PStr "{'resting': {'oid': 77738308}}")]).
Proof. reflexivity. Qed.

Arguments statuses_of : simpl never.
Arguments first_has : simpl never.
Arguments py_str : simpl never.

Ltac enter_ok Hstatus Hstatuses :=
  unfold parse_order_result;
  rewrite py_get_dict, Hstatus; cbn [bind_outcome py_eq_str];
  change (String.eqb "ok" "ok") with true; cbv iota;
  rewrite Hstatuses; cbn [bind_outcome].

(** ** The filled branch *)

(** C3.  A response with top-level status ["ok"] whose first per-order status
    entry holds a ["filled"] record is classified as [filled], with the
    record's [avgPx] and [totalSz], each ["0"] when the record lacks it. *)
Theorem parse_order_result_filled (d e fill : dict) (rest : list pyval) :
  lookup "status" d = Some (PStr "ok") ->
  statuses_of (PDict d) = inr (PList (PDict e :: rest)) ->
  lookup "filled" e = Some (PDict fill) ->
  parse_order_result (PDict d)
  = inr (PDict [("status", PStr "filled");
                ("avg_price", match lookup "avgPx" fill with Some p => p | None => PStr "0" end);
                ("total_size", match lookup "totalSz" fill with Some z => z | None => PStr "0" end)]).
Proof.
  intros Hstatus Hstatuses Hfilled.
  enter_ok Hstatus Hstatuses.
  rewrite first_has_cons, py_contains_dict, Hfilled.
  cbn [bind_outcome py_first py_item]. rewrite Hfilled.
  reflexivity.
Qed.

Lemma parse_order_result_filled_example :
  parse_order_result
    (PDict [("status", PStr "ok");
            ("response", PDict [("data", PDict [("statuses", PList [filled_entry])])])])
  = inr (PDict [("status", PStr "filled");
                ("avg_price", PStr "67010.5");
                ("total_size", PStr "0.001")]).
Proof.
  exact (parse_order_result_filled
           [("status", PStr "ok");
            ("response", PDict [("data", PDict [("statuses", PList [filled_entry])])])]
           [("filled", PDict [("avgPx", PStr "67010.5"); ("totalSz", PStr "0.001")])]
           [("avgPx", PStr "67010.5"); ("totalSz", PStr "0.001")]
           [] eq_refl eq_refl eq_refl).
Defined.

(** ** The rejected branch *)

(** C4.  A response with top-level status ["ok"] whose first per-order status
    entry has an ["error"] key and neither ["filled"] nor ["resting"] is
    classified as [error] at step [order_rejected], the detail being the value
    under ["error"] as it is. *)
Theorem parse_order_result_rejected (d e : dict) (rest : list pyval) (detail : pyval) :
  lookup "status" d = Some (PStr "ok") ->
  statuses_of (PDict d) = inr (PList (PDict e :: rest)) ->
  lookup "filled" e = None ->
  lookup "resting" e = None ->
  lookup "error" e = Some detail ->
  parse_order_result (PDict d)
  = inr (PDict [("status", PStr "error");
                ("step", PStr "order_rejected");
                ("detail", detail)]).
Proof.
  intros Hstatus Hstatuses Hfilled Hresting Herror.
  enter_ok Hstatus Hstatuses.
  rewrite !first_has_cons, !py_contains_dict, Hfilled, Hresting, Herror.
  cbn [bind_outcome py_first py_item]. rewrite Herror.
  reflexivity.
Qed.

Lemma parse_order_result_rejected_example :
  parse_order_result
    (PDict [("status", PStr "ok");
            ("response", PDict [("data", PDict [("statuses", PList [rejected_entry])])])])
  = inr (PDict [("status", PStr "error");
                ("step", PStr "order_rejected");
                ("detail", PStr "Order could not be fully filled")]).
Proof.
  exact (parse_order_result_rejected
           [("status", PStr "ok");
            ("response", PDict [("data", PDict [("statuses", PList [rejected_entry])])])]
           [("error", PStr "Order could not be fully filled")]
           [] (PStr "Order could not be fully filled")
           eq_refl eq_refl eq_refl eq_refl eq_refl).
Defined.

(** ** The top-level status *)

Lemma not_ok_eq_str (d : dict) :
  lookup "status" d <> Some (PStr "ok") ->
  py_eq_str (match lookup "status" d with Some x => x | None => PNone end) "ok" = false.
Proof.
  intros Hnot. destruct (lookup "status" d) as [v|]; [|reflexivity].
  destruct (py_eq_str v "ok") eqn:Heq; [|reflexivity].
  apply py_eq_str_ok in Heq. subst v. now elim Hnot.
Qed.

(** C5.  A response whose top-level ["status"] is absent, or is anything but
    ["ok"], is classified as [error] at step [place_order] with [str] of the
    whole response as detail, whatever else the response holds. *)
Theorem parse_order_result_not_ok (d : dict) :
  lookup "status" d <> Some (PStr "ok") ->
  parse_order_result (PDict d)
  = inr (PDict [("status", PStr "error");
                ("step", PStr "place_order");
                ("detail", PStr (py_str (PDict d)))]).
Proof.
  intros Hnot. unfold parse_order_result.
  rewrite py_get_dict. cbn [bind_outcome].
  rewrite (not_ok_eq_str d Hnot). reflexivity.
Qed.

Lemma parse_order_result_not_ok_example :
  parse_order_result
    (PDict [("status", PStr "err");
            ("response", PDict [("data", PDict [("statuses", PList [filled_entry])])])])
  = inr (PDict [("status", PStr "error");
                ("step", PStr "place_order");
                ("detail",
                 PStr ("{'status': 'err', 'response': {'data': {'statuses': "
                       ++ "[{'filled': {'avgPx': '67010.5', 'totalSz': '0.001'}}]}}}"))]).
Proof.
  refine (parse_order_result_not_ok
           [("status", PStr "err");
            ("response", PDict [("data", PDict [("statuses", PList [filled_entry])])])]
           _).
  discriminate.
Defined.

(** ** The no-fill branch *)

Lemma parse_order_result_falls_through (d : dict) (statuses : pyval) :
  lookup "status" d = Some (PStr "ok") ->
  statuses_of (PDict d) = inr statuses ->
  first_has statuses "filled" = inr false ->
  first_has statuses "resting" = inr false ->
  first_has statuses "error" = inr false ->
  parse_order_result (PDict d)
  = inr (PDict [("status", PStr "no_fill"); ("detail", PStr (py_str statuses))]).
Proof.
  intros Hstatus Hstatuses Hfilled Hresting Herror.
  enter_ok Hstatus Hstatuses.
  rewrite Hfilled, Hresting, Herror. reflexivity.
Qed.

(** C6, as the code has it.  A response with top-level status ["ok"] whose
    per-order status list is empty, or whose first entry is a [dict], a
    [list] or a text on which each of the tests ["filled" in], ["resting" in]
    and ["error" in] gives [False], is classified as [no_fill] with [str] of
    the list as detail, and not as an error. *)
Theorem parse_order_result_no_fill (d : dict) (statuses : list pyval) :
  lookup "status" d = Some (PStr "ok") ->
  statuses_of (PDict d) = inr (PList statuses) ->
  (statuses = []
   \/ exists first rest,
        statuses = first :: rest
        /\ py_contains first "filled" = inr false
        /\ py_contains first "resting" = inr false
        /\ py_contains first "error" = inr false) ->
  parse_order_result (PDict d)
  = inr (PDict [("status", PStr "no_fill"); ("detail", PStr (py_str (PList statuses)))])
  /\ classify (PDict d) = inr (Some NoFill).
Proof.
  intros Hstatus Hstatuses Hshape.
  assert (Hparse : parse_order_result (PDict d)
                   = inr (PDict [("status", PStr "no_fill");
                                 ("detail", PStr (py_str (PList statuses)))])).
  { apply parse_order_result_falls_through; trivial;
      destruct Hshape as [-> | (first & rest & -> & Hf & Hr & He)];
      rewrite ?first_has_nil, ?first_has_cons; trivial. }
  split; [exact Hparse|].
  unfold classify. rewrite Hparse. reflexivity.
Qed.

Lemma parse_order_result_no_fill_example :
  (parse_order_result (ok_response [])
   = inr (PDict [("status", PStr "no_fill"); ("detail", PStr "[]")])
   /\ classify (ok_response []) = inr (Some NoFill))
  /\ (parse_order_result (ok_response [PDict [("cancelled", PBool true)]])
      = inr (PDict [("status", PStr "no_fill"); ("detail", PStr "[{'cancelled': True}]")])
      /\ classify (ok_response [PDict [("cancelled", PBool true)]]) = inr (Some NoFill)).
Proof.
  split.
  - refine (parse_order_result_no_fill
              [("status", PStr "ok");
               ("response", PDict [("type", PStr "order");
                                   ("data", PDict [("statuses", PList [])])])]
              [] eq_refl eq_refl _).
    left. reflexivity.
  - refine (parse_order_result_no_fill
              [("status", PStr "ok");
               ("response",
                PDict [("type", PStr "order");
                       ("data", PDict [("statuses", PList [PDict [("cancelled", PBool true)]])])])]
              [PDict [("cancelled", PBool true)]] eq_refl eq_refl _).
    right. exists (PDict [("cancelled", PBool true)]), [].
    repeat split.
Defined.

(** C6 as written fails on a first entry that cannot be searched.  [null]
    holds none of the three records, yet ["filled" in None] raises: the
    classifier returns nothing, and [seed_trade] and [close_position] report
    status [error] at step [exception], not [no_fill]. *)
Lemma parse_order_result_null_entry_is_error :
  lookup "status" [("status", PStr "ok");
                   ("response", PDict [("type", PStr "order");
                                       ("data", PDict [("statuses", PList [PNone])])])]
  = Some (PStr "ok")
  /\ statuses_of (ok_response [PNone]) = inr (PList [PNone])
  /\ parse_order_result (ok_response [PNone]) = inl (not_iterable PNone)
  /\ exn_class (not_iterable PNone) = "TypeError"
  /\ fst (run (do_seed_trade seed_args) null_entry_world)
     = inr (exception_result (not_iterable PNone))
  /\ fst (run (do_close_position seed_args) null_entry_world)
     = inr (exception_result (not_iterable PNone))
  /\ field "status" (exception_result (not_iterable PNone)) = Some "error".
Proof. repeat split. Qed.

(** *** What the detail of a no-fill shows *)

Lemma append_assoc (a b c : string) : (a ++ b) ++ c = a ++ (b ++ c).
Proof. induction a as [|x a IH]; simpl; [reflexivity | now rewrite IH]. Qed.

Lemma occurs_in_wrap (piece text before after : string) :
  occurs_in piece text -> occurs_in piece (before ++ text ++ after).
Proof.
  intros (b & a & ->). exists (before ++ b), (a ++ after).
  now rewrite !append_assoc.
Qed.

Lemma append_empty_r (a : string) : a ++ EmptyString = a.
Proof. induction a as [|x a IH]; simpl; [reflexivity | now rewrite IH]. Qed.

Lemma join_comma_cons (p : string) (parts : list string) :
  exists after, join_comma (p :: parts) = p ++ after
                /\ (parts <> [] -> after = ", " ++ join_comma parts).
Proof.
  destruct parts as [|q parts].
  - exists EmptyString. simpl. now rewrite append_empty_r.
  - exists (", " ++ join_comma (q :: parts)). split; reflexivity.
Qed.

Lemma join_comma_occurs (parts : list string) (p : string) :
  In p parts -> occurs_in p (join_comma parts).
Proof.
  induction parts as [|q parts IH]; intros Hin; [contradiction|].
  destruct Hin as [-> | Hin].
  - destruct (join_comma_cons p parts) as (after & -> & _).
    exists EmptyString, after. reflexivity.
  - destruct parts as [|r parts]; [contradiction|].
    change (join_comma (q :: r :: parts)) with (q ++ ", " ++ join_comma (r :: parts)).
    destruct (IH Hin) as (b & a & ->).
    exists (q ++ ", " ++ b), a. now rewrite !append_assoc.
Qed.

Lemma str_list_shows_items (items : list pyval) (x : pyval) :
  In x items -> occurs_in (py_repr x) (py_str (PList items)).
Proof.
  intros Hin. unfold py_str. cbn [py_repr].
  apply (occurs_in_wrap _ _ "[" "]"), join_comma_occurs, in_map, Hin.
Qed.

(** C9.  In the no-fill branch the detail is [str] of the whole status list:
    whatever follows the first entry leaves the status at [no_fill], yet its
    [repr] is part of the detail text. *)
Theorem no_fill_detail_shows_whole_list (d : dict) (first : pyval) (rest : list pyval) :
  lookup "status" d = Some (PStr "ok") ->
  statuses_of (PDict d) = inr (PList (first :: rest)) ->
  py_contains first "filled" = inr false ->
  py_contains first "resting" = inr false ->
  py_contains first "error" = inr false ->
  parse_order_result (PDict d)
  = inr (PDict [("status", PStr "no_fill");
                ("detail", PStr (py_str (PList (first :: rest))))])
  /\ forall later, In later rest ->
       occurs_in (py_repr later) (py_str (PList (first :: rest))).
Proof.
  intros Hstatus Hstatuses Hf Hr He. split.
  - apply parse_order_result_falls_through; trivial;
      rewrite first_has_cons; trivial.
  - intros later Hin. apply str_list_shows_items. now right.
Qed.

Lemma no_fill_detail_shows_whole_list_example :
  parse_order_result (ok_response [PStr "waitingForFill"; filled_entry])
  = inr (PDict [("status", PStr "no_fill");
                ("detail",
                 PStr ("['waitingForFill', "
                       ++ "{'filled': {'avgPx': '67010.5', 'totalSz': '0.001'}}]"))])
  /\ occurs_in "{'filled': {'avgPx': '67010.5', 'totalSz': '0.001'}}"
               (py_str (PList [PStr "waitingForFill"; filled_entry])).
Proof.
  destruct (no_fill_detail_shows_whole_list
              [("status", PStr "ok");
               ("response",
                PDict [("type", PStr "order");
                       ("data",
                        PDict [("statuses", PList [PStr "waitingForFill"; filled_entry])])])]
              (PStr "waitingForFill") [filled_entry]
              eq_refl eq_refl eq_refl eq_refl eq_refl) as [Hparse Hshown].
  split; [exact Hparse|].
  apply (Hshown filled_entry). left. reflexivity.
Defined.

(** ** Missing levels *)

Lemma statuses_of_missing (d : dict) :
  (lookup "response" d = None
   \/ (exists response,
         lookup "response" d = Some (PDict response)
         /\ lookup "data" response = None)
   \/ (exists response data,
         lookup "response" d = Some (PDict response)
         /\ lookup "data" response = Some (PDict data)
         /\ lookup "statuses" data = None)) ->
  statuses_of (PDict d) = inr (PList []).
Proof.
  unfold statuses_of.
  intros [Hr | [(response & Hr & Hd) | (response & data & Hr & Hd & Hs)]];
    rewrite py_get_dict, Hr; cbn [bind_outcome].
  - reflexivity.
  - rewrite py_get_dict, Hd. reflexivity.
  - rewrite py_get_dict, Hd. cbn [bind_outcome]. rewrite py_get_dict, Hs. reflexivity.
Qed.

(** C10.  A response with top-level status ["ok"] that lacks ["response"],
    or whose ["response"] lacks ["data"], or whose ["data"] lacks
    ["statuses"]: every missing level reads as empty, nothing is raised, and
    the result is [no_fill] with detail ["[]"]. *)
Theorem parse_order_result_missing_levels (d : dict) :
  lookup "status" d = Some (PStr "ok") ->
  (lookup "response" d = None
   \/ (exists response,
         lookup "response" d = Some (PDict response)
         /\ lookup "data" response = None)
   \/ (exists response data,
         lookup "response" d = Some (PDict response)
         /\ lookup "data" response = Some (PDict data)
         /\ lookup "statuses" data = None)) ->
  statuses_of (PDict d) = inr (PList [])
  /\ parse_order_result (PDict d)
     = inr (PDict [("status", PStr "no_fill"); ("detail", PStr "[]")]).
Proof.
  intros Hstatus Hmissing.
  pose proof (statuses_of_missing d Hmissing) as Hstatuses.
  split; [exact Hstatuses|].
  now apply (parse_order_result_falls_through d (PList [])).
Qed.

Lemma parse_order_result_missing_levels_example :
  parse_order_result (PDict [("status", PStr "ok")])
  = inr (PDict [("status", PStr "no_fill"); ("detail", PStr "[]")])
  /\ parse_order_result (PDict [("status", PStr "ok"); ("response", PDict [("type", PStr "order")])])
     = inr (PDict [("status", PStr "no_fill"); ("detail", PStr "[]")])
  /\ parse_order_result
       (PDict [("status", PStr "ok"); ("response", PDict [("data", PDict [])])])
     = inr (PDict [("status", PStr "no_fill"); ("detail", PStr "[]")]).
Proof.
  split; [|split].
  - apply (parse_order_result_missing_levels [("status", PStr "ok")] eq_refl).
    left. reflexivity.
  - apply (parse_order_result_missing_levels
             [("status", PStr "ok"); ("response", PDict [("type", PStr "order")])] eq_refl).
    right. left. exists [("type", PStr "order")]. split; reflexivity.
  - apply (parse_order_result_missing_levels
             [("status", PStr "ok"); ("response", PDict [("data", PDict [])])] eq_refl).
    right. right. exists [("data", PDict [])], []. repeat split.
Defined.

(** ** Only the first entry counts *)






(** ** Running an action *)

Lemma bind_assoc {A B C : Type} (m : M A) (f : A -> M B) (g : B -> M C)
  (w : world) (tr : trace) :
  bind (bind m f) g w tr = bind m (fun x => bind (f x) g) w tr.
Proof. unfold bind. destruct (m w tr) as [[e|a] tr']; reflexivity. Qed.

Lemma bind_perform {A : Type} (c : call) (k : pyval -> M A) (w : world) (tr : trace) :
  bind (perform c) k w tr
  = match w tr c with
    | inl e => (inl e, (tr ++ [(c, inl e)])%list)
    | inr v => k v w (tr ++ [(c, inr v)])%list
    end.
Proof. unfold bind, perform. destruct (w tr c); reflexivity. Qed.

Lemma bind_lift {A B : Type} (r : outcome A) (k : A -> M B) (w : world) (tr : trace) :
  bind (lift r) k w tr
  = match r with
    | inl e => (inl e, tr)
    | inr a => k a w tr
    end.
Proof. unfold bind, lift. destruct r; reflexivity. Qed.

(** The next call of the run in [H]: it raises, or it answers. *)
Ltac call_step H :=
  rewrite ?bind_assoc in H; rewrite bind_perform in H;
  let e := fresh "e" in
  let v := fresh "v" in
  let Hw := fresh "Hw" in
  match type of H with
  | context [match ?w ?tr ?c with _ => _ end] =>
      destruct (w tr c) as [e|v] eqn:Hw
  end;
  cbn [app] in H.

Ltac lift_step H :=
  rewrite bind_lift in H;
  let e := fresh "e" in
  let a := fresh "a" in
  let Hl := fresh "Hl" in
  match type of H with
  | context [match ?r with inl _ => _ | inr _ => _ end] =>
      destruct r as [e|a] eqn:Hl
  end.

(** The run in [H] is over: read the result and the trace off it. *)
Ltac finished H := unfold ret, lift in H; injection H as <- <-.

(** [H] says an event is in a trace made of known events: find which. *)
Ltac same_event H :=
  simpl in H;
  repeat match type of H with
         | _ \/ _ => destruct H as [H|H]
         | False => contradiction
         | _ = _ => first [discriminate H | injection H as ?; subst]
         end.

(** ** The seed trade and its leverage step *)

(** C1.  In a run of [seed_trade] where the leverage update answered a
    response whose top-level ["status"] is not ["ok"], the result is the
    error at step [set_leverage] with [str] of that response as detail,
    nothing else in it, and no order call was made. *)
Theorem seed_trade_stops_after_failed_leverage
  (w : world) (args : Args) (lev : Z) (name : string) (cross : bool) (d : dict)
  (r : outcome pyval) (tr : trace) :
  run (do_seed_trade args) w = (r, tr) ->
  In (update_leverage lev name cross, inr (PDict d)) tr ->
  lookup "status" d <> Some (PStr "ok") ->
  r = inr (PDict [("status", PStr "error");
                  ("step", PStr "set_leverage");
                  ("detail", PStr (py_str (PDict d)))])
  /\ forall ev, In ev tr -> is_order (fst ev) = false.
Proof.
  unfold run, do_seed_trade, try_except, make_exchange.
  intros Hrun Hin Hnot.
  do 4 (call_step Hrun; [finished Hrun; same_event Hin|]).
  lift_step Hrun.
  { finished Hrun. same_event Hin. discriminate Hl. }
  assert (Hstatus : forall v, v = PDict d -> py_get v "status" PNone = inr a ->
                              py_eq_str a "ok" = false).
  { intros v' -> Hget. rewrite py_get_dict in Hget. injection Hget as <-.
    now apply not_ok_eq_str. }
  destruct (py_eq_str a "ok") eqn:Hok; cbn [negb] in Hrun.
  - (* the order step ran: the leverage response was ["ok"] *)
    call_step Hrun.
    + finished Hrun. same_event Hin.
      specialize (Hstatus _ eq_refl Hl). congruence.
    + unfold lift in Hrun.
      assert (Htr : In (update_leverage lev name cross, (inr (PDict d) : outcome pyval))
                       [(update_leverage (leverage args) (asset args) true, inr v2)]).
      { destruct (parse_order_result v3); injection Hrun as _ <-; same_event Hin;
          now left. }
      same_event Htr. specialize (Hstatus _ eq_refl Hl). congruence.
  - finished Hrun. same_event Hin. split; [reflexivity|].
    intros ev Hev. simpl in Hev.
    repeat destruct Hev as [<- | Hev]; try reflexivity. contradiction.
Qed.

Lemma seed_trade_invalid_leverage_example :
  fst (run (do_seed_trade seed_args) refusing_world)
  = inr (PDict [("status", PStr "error");
                ("step", PStr "set_leverage");
                ("detail", PStr "{'status': 'err', 'response': 'Invalid leverage'}")])
  /\ forall ev, In ev (snd (run (do_seed_trade seed_args) refusing_world)) ->
                is_order (fst ev) = false.
Proof.
  refine (seed_trade_stops_after_failed_leverage
            refusing_world seed_args 5 "BTC" true
            [("status", PStr "err"); ("response", PStr "Invalid leverage")]
            (fst (run (do_seed_trade seed_args) refusing_world))
            (snd (run (do_seed_trade seed_args) refusing_world))
            eq_refl _ _).
  - right. right. right. left. reflexivity.
  - discriminate.
Defined.

(** A leverage update that went through, then a fill. *)
Example seed_trade_filled :
  fst (run (do_seed_trade seed_args) filling_world)
  = inr (PDict [("status", PStr "filled");
                ("avg_price", PStr "67010.5");
                ("total_size", PStr "0.001")]).
Proof. reflexivity. Qed.

(** ** Exceptions of the client library *)

Ltac caught H :=
  finished H;
  split; [eexists; reflexivity |];
  let c := fresh "c" in
  let e := fresh "e" in
  let Hin := fresh "Hin" in
  intros c e Hin; same_event Hin; reflexivity.

(** C7.  Each of the three actions returns a value on every run, and when the
    client construction or a remote call raised [e], that value is the error
    with [str(e)] as detail: with step [exception] for [seed_trade] and
    [close_position], without a step for [set_leverage]. *)
Theorem actions_catch_exceptions :
  catches do_set_leverage
    (fun e => PDict [("status", PStr "error"); ("detail", PStr (exn_str e))])
  /\ catches do_seed_trade
       (fun e => PDict [("status", PStr "error");
                        ("step", PStr "exception");
                        ("detail", PStr (exn_str e))])
  /\ catches do_close_position
       (fun e => PDict [("status", PStr "error");
                        ("step", PStr "exception");
                        ("detail", PStr (exn_str e))]).
Proof.
  split; [|split]; intros w args r tr Hrun.
  - unfold run, do_set_leverage, try_except, make_exchange in Hrun.
    do 4 (call_step Hrun; [caught Hrun|]).
    lift_step Hrun; [caught Hrun|].
    destruct (py_eq_str a "ok"); caught Hrun.
  - unfold run, do_seed_trade, try_except, make_exchange in Hrun.
    do 4 (call_step Hrun; [caught Hrun|]).
    lift_step Hrun; [caught Hrun|].
    destruct (negb (py_eq_str a "ok")); [caught Hrun|].
    call_step Hrun; [caught Hrun|].
    destruct (parse_order_result v3); caught Hrun.
  - unfold run, do_close_position, try_except, make_exchange in Hrun.
    do 4 (call_step Hrun; [caught Hrun|]).
    destruct (parse_order_result v2); caught Hrun.
Qed.

Lemma actions_catch_exceptions_example :
  fst (run (do_set_leverage seed_args) bad_key_world)
  = inr (PDict [("status", PStr "error"); ("detail", PStr "bad key")])
  /\ fst (run (do_seed_trade seed_args) bad_key_world)
     = inr (PDict [("status", PStr "error");
                   ("step", PStr "exception");
                   ("detail", PStr "bad key")])
  /\ fst (run (do_close_position seed_args) bad_key_world)
     = inr (PDict [("status", PStr "error");
                   ("step", PStr "exception");
                   ("detail", PStr "bad key")]).
Proof.
  destruct actions_catch_exceptions as (Hset & Hseed & Hclose).
  split; [|split].
  - refine (proj2 (Hset bad_key_world seed_args _ _ eq_refl)
              (Account_from_key "0xabc") (Raise "ValueError" "bad key") _).
    right. left. reflexivity.
  - refine (proj2 (Hseed bad_key_world seed_args _ _ eq_refl)
              (Account_from_key "0xabc") (Raise "ValueError" "bad key") _).
    right. left. reflexivity.
  - refine (proj2 (Hclose bad_key_world seed_args _ _ eq_refl)
              (Account_from_key "0xabc") (Raise "ValueError" "bad key") _).
    right. left. reflexivity.
Defined.

(** ** The side flag *)

Lemma every_char_spec (P : ascii -> bool) :
  every_char P = true -> forall c, P c = true.
Proof.
  unfold every_char. rewrite forallb_forall. intros Hall c.
  rewrite <- (ascii_nat_embedding c). apply Hall.
  apply in_seq. pose proof (nat_ascii_bounded c). lia.
Qed.

(** Lower-casing a character gives a small ASCII letter exactly on that
    letter and on its capital. *)
Lemma lower_char_small_letter (c l : ascii) :
  small_letter l = true ->
  Ascii.eqb (lower_char c) l = Ascii.eqb c l || Ascii.eqb c (capital l).
Proof.
  revert c l.
  assert (Hall : every_char (fun l => every_char (fun c =>
            implb (small_letter l)
                  (Bool.eqb (Ascii.eqb (lower_char c) l)
                            (Ascii.eqb c l || Ascii.eqb c (capital l))))) = true)
    by (vm_compute; reflexivity).
  intros c l Hl.
  pose proof (every_char_spec _ (every_char_spec _ Hall l) c) as H.
  rewrite Hl in H. now apply Bool.eqb_prop in H.
Qed.

Lemma lower_in_any_case (word x : string) :
  small_letters word = true ->
  String.eqb (lower x) word = in_any_case word x.
Proof.
  revert x. induction word as [|l word IH]; intros [|c x] Hword; try reflexivity.
  simpl in Hword. apply andb_prop in Hword as [Hl Hword].
  cbn [lower in_any_case String.eqb].
  rewrite <- (IH x Hword), <- (lower_char_small_letter c l Hl).
  destruct (Ascii.eqb (lower_char c) l); reflexivity.
Qed.

(** C2, as the code has it.  Without [--is-buy] the side is buy; with it, the
    side is buy exactly when the text is ["true"] in some letter case, so
    ["false"] in any letter case, and every other text, gives sell. *)
Theorem parse_is_buy_spec :
  parse_is_buy None = true
  /\ (forall x, in_any_case "false" x = true -> parse_is_buy (Some x) = false)
  /\ (forall x, in_any_case "true" x = false -> parse_is_buy (Some x) = false)
  /\ (forall x, in_any_case "true" x = true -> parse_is_buy (Some x) = true).
Proof.
  assert (Htrue : forall x, parse_is_buy (Some x) = in_any_case "true" x)
    by (intros x; apply lower_in_any_case; reflexivity).
  repeat split; intros x Hx; rewrite Htrue; trivial.
  rewrite <- (lower_in_any_case "false") in Hx by reflexivity.
  rewrite <- (lower_in_any_case "true") by reflexivity.
  apply String.eqb_eq in Hx. now rewrite Hx.
Qed.

Lemma parse_is_buy_spec_example :
  parse_is_buy (Some "FALSE") = false
  /\ parse_is_buy (Some "no") = false
  /\ parse_is_buy (Some "True") = true.
Proof.
  destruct parse_is_buy_spec as (_ & Hfalse & Hother & Htrue).
  split; [|split].
  - apply Hfalse. reflexivity.
  - apply Hother. reflexivity.
  - apply Htrue. reflexivity.
Defined.

(** C2 as written fails: ["yes"] is not ["true"] in any letter case, and it
    gives sell, not buy. *)
Lemma parse_is_buy_other_text_is_sell :
  in_any_case "true" "yes" = false /\ parse_is_buy (Some "yes") = false.
Proof. split; reflexivity. Qed.

(** * Further properties of the actions *)

(** [H] says every event of a known trace has a property: go through them. *)
Ltac each_event :=
  let ev := fresh "ev" in
  let Hev := fresh "Hev" in
  intros ev Hev; simpl in Hev;
  repeat destruct Hev as [<- | Hev]; try contradiction.

(** ** set_leverage *)

(** X1.  In a run of [set_leverage] where the leverage update answered a
    [dict]: the result is [{"status": "ok"}] when its status is ["ok"], and
    the error with [str] of the response, without a step, when it is not. *)
Theorem set_leverage_by_status
  (w : world) (args : Args) (lev : Z) (name : string) (cross : bool) (d : dict)
  (r : outcome pyval) (tr : trace) :
  run (do_set_leverage args) w = (r, tr) ->
  In (update_leverage lev name cross, inr (PDict d)) tr ->
  (lookup "status" d = Some (PStr "ok") -> r = inr (PDict [("status", PStr "ok")]))
  /\ (lookup "status" d <> Some (PStr "ok") ->
      r = inr (PDict [("status", PStr "error"); ("detail", PStr (py_str (PDict d)))])).
Proof.
  unfold run, do_set_leverage, try_except, make_exchange.
  intros Hrun Hin.
  do 4 (call_step Hrun; [finished Hrun; same_event Hin|]).
  lift_step Hrun.
  { finished Hrun. same_event Hin. discriminate Hl. }
  destruct (py_eq_str a "ok") eqn:Hok; finished Hrun; same_event Hin;
    rewrite py_get_dict in Hl; injection Hl as <-.
  - split; [reflexivity|]. intros Hnot.
    rewrite (not_ok_eq_str d Hnot) in Hok. discriminate.
  - split; [|reflexivity]. intros Hstatus.
    rewrite Hstatus in Hok. discriminate.
Qed.

Lemma set_leverage_by_status_example :
  fst (run (do_set_leverage seed_args) filling_world) = inr (PDict [("status", PStr "ok")])
  /\ fst (run (do_set_leverage seed_args) refusing_world)
     = inr (PDict [("status", PStr "error");
                   ("detail", PStr "{'status': 'err', 'response': 'Invalid leverage'}")]).
Proof.
  split.
  - refine (proj1 (set_leverage_by_status filling_world seed_args 5 "BTC" true
                     [("status", PStr "ok")] _ _ eq_refl _) eq_refl).
    right. right. right. left. reflexivity.
  - refine (proj2 (set_leverage_by_status refusing_world seed_args 5 "BTC" true
                     [("status", PStr "err"); ("response", PStr "Invalid leverage")]
                     _ _ eq_refl _) _).
    + right. right. right. left. reflexivity.
    + discriminate.
Defined.

(** X2.  [set_leverage] places no order, and the one remote call it can make
    is the leverage update of the asset to the leverage asked for, in cross
    margin. *)
Theorem set_leverage_calls
  (w : world) (args : Args) (r : outcome pyval) (tr : trace) (c : call) (a : outcome pyval) :
  run (do_set_leverage args) w = (r, tr) ->
  In (c, a) tr ->
  is_remote c = true ->
  c = update_leverage args.(leverage) args.(asset) true.
Proof.
  unfold run, do_set_leverage, try_except, make_exchange.
  intros Hrun Hin Hremote.
  do 4 (call_step Hrun; [finished Hrun; same_event Hin; trivial; discriminate|]).
  lift_step Hrun.
  { finished Hrun. same_event Hin; trivial; discriminate. }
  destruct (py_eq_str a0 "ok"); finished Hrun; same_event Hin; trivial; discriminate.
Qed.

Lemma set_leverage_calls_example :
  In (update_leverage 5 "BTC" true, inr (PDict [("status", PStr "ok")]))
     (snd (run (do_set_leverage seed_args) filling_world))
  /\ update_leverage 5 "BTC" true
     = update_leverage seed_args.(leverage) seed_args.(asset) true.
Proof.
  assert (Hin : In (update_leverage 5 "BTC" true, inr (PDict [("status", PStr "ok")]))
                   (snd (run (do_set_leverage seed_args) filling_world)))
    by (right; right; right; left; reflexivity).
  split; [exact Hin|].
  exact (set_leverage_calls filling_world seed_args _ _ _ _ eq_refl Hin eq_refl).
Defined.

(** ** close_position *)

(** X3.  [close_position] never touches the leverage: the one remote call it
    can make is the immediate-or-cancel limit order with the asset, side,
    size and price asked for. *)
Theorem close_position_calls
  (w : world) (args : Args) (r : outcome pyval) (tr : trace) (c : call) (a : outcome pyval) :
  run (do_close_position args) w = (r, tr) ->
  In (c, a) tr ->
  is_remote c = true ->
  c = order args.(asset) args.(is_buy) args.(size) args.(price) ioc.
Proof.
  unfold run, do_close_position, try_except, make_exchange.
  intros Hrun Hin Hremote.
  do 4 (call_step Hrun; [finished Hrun; same_event Hin; trivial; discriminate|]).
  unfold lift in Hrun.
  destruct (parse_order_result v2); finished Hrun; same_event Hin; trivial; discriminate.
Qed.

Lemma close_position_calls_example :
  In (order "BTC" true "0.001" "67000.0" ioc, inr (ok_response [filled_entry]))
     (snd (run (do_close_position seed_args) refusing_world))
  /\ order "BTC" true "0.001" "67000.0" ioc
     = order seed_args.(asset) seed_args.(is_buy) seed_args.(size) seed_args.(price) ioc.
Proof.
  assert (Hin : In (order "BTC" true "0.001" "67000.0" ioc, inr (ok_response [filled_entry]))
                   (snd (run (do_close_position seed_args) refusing_world)))
    by (right; right; right; left; reflexivity).
  split; [exact Hin|].
  exact (close_position_calls refusing_world seed_args _ _ _ _ eq_refl Hin eq_refl).
Defined.

(** X4.  In a run of [close_position] where the order call answered, the
    result is what the classifier makes of the answer, and the report of the
    exception when the classifier raises on it. *)
Theorem close_position_classifies
  (w : world) (args : Args) (r : outcome pyval) (tr : trace)
  (c : call) (order_result : pyval) :
  run (do_close_position args) w = (r, tr) ->
  In (c, inr order_result) tr ->
  is_order c = true ->
  r = inr (match parse_order_result order_result with
           | inr result => result
           | inl e => exception_result e
           end).
Proof.
  unfold run, do_close_position, try_except, make_exchange.
  intros Hrun Hin Horder.
  do 4 (call_step Hrun; [finished Hrun; same_event Hin; discriminate|]).
  unfold lift in Hrun.
  destruct (parse_order_result v2) eqn:Hparse; finished Hrun;
    same_event Hin; try discriminate; now rewrite Hparse.
Qed.

Lemma close_position_classifies_example :
  fst (run (do_close_position seed_args) refusing_world)
  = inr (PDict [("status", PStr "filled");
                ("avg_price", PStr "67010.5");
                ("total_size", PStr "0.001")]).
Proof.
  refine (close_position_classifies refusing_world seed_args _ _
            (order "BTC" true "0.001" "67000.0" ioc) (ok_response [filled_entry])
            eq_refl _ eq_refl).
  right. right. right. left. reflexivity.
Defined.

(** ** seed_trade *)

(** X5.  In a run of [seed_trade] an order call comes right after the
    leverage update, which was made for the asset and leverage asked for, in
    cross margin, and answered with status ["ok"]; the order is the
    immediate-or-cancel one with the values asked for, and the last call of
    the run: nothing undoes the leverage when the order fails. *)
Theorem seed_trade_order_follows_leverage
  (w : world) (args : Args) (r : outcome pyval) (tr : trace) (c : call) (a : outcome pyval) :
  run (do_seed_trade args) w = (r, tr) ->
  In (c, a) tr ->
  is_order c = true ->
  exists (construction : trace) (lev_result : dict),
    tr = (construction
          ++ [(update_leverage args.(leverage) args.(asset) true, inr (PDict lev_result));
              (order args.(asset) args.(is_buy) args.(size) args.(price) ioc, a)])%list
    /\ lookup "status" lev_result = Some (PStr "ok")
    /\ forall ev, In ev construction -> is_remote (fst ev) = false.
Proof.
  unfold run, do_seed_trade, try_except, make_exchange.
  intros Hrun Hin Horder.
  do 4 (call_step Hrun; [finished Hrun; same_event Hin; discriminate|]).
  lift_step Hrun.
  { finished Hrun. same_event Hin; discriminate. }
  destruct (py_eq_str a0 "ok") eqn:Hok; cbn [negb] in Hrun.
  2:{ finished Hrun. same_event Hin; discriminate. }
  apply py_eq_str_ok in Hok. subst a0.
  assert (Hlev : exists lev_result,
             v2 = PDict lev_result /\ lookup "status" lev_result = Some (PStr "ok")).
  { destruct v2; try discriminate Hl. exists entries. split; [reflexivity|].
    rewrite py_get_dict in Hl. injection Hl as Hl.
    destruct (lookup "status" entries); [now subst | discriminate]. }
  destruct Hlev as (lev_result & -> & Hstatus).
  exists [(import_Exchange, inr v); (Account_from_key (key args), inr v0);
          (Exchange_init (hl_url args), inr v1)], lev_result.
  call_step Hrun.
  - finished Hrun. same_event Hin; try discriminate.
    split; [reflexivity|]. split; [exact Hstatus|].
    each_event; reflexivity.
  - unfold lift in Hrun.
    destruct (parse_order_result v2); finished Hrun; same_event Hin; try discriminate;
      (split; [reflexivity|]; split; [exact Hstatus|]; each_event; reflexivity).
Qed.

Lemma seed_trade_order_follows_leverage_example :
  exists (construction : trace) (lev_result : dict),
    snd (run (do_seed_trade seed_args) filling_world)
    = (construction
       ++ [(update_leverage 5 "BTC" true, inr (PDict lev_result));
           (order "BTC" true "0.001" "67000.0" ioc, filling_world [] (order "BTC" true "0.001" "67000.0" ioc))])%list
    /\ lookup "status" lev_result = Some (PStr "ok")
    /\ forall ev, In ev construction -> is_remote (fst ev) = false.
Proof.
  refine (seed_trade_order_follows_leverage filling_world seed_args _ _
            (order "BTC" true "0.001" "67000.0" ioc) _ eq_refl _ eq_refl).
  right. right. right. right. left. reflexivity.
Defined.

(** X6.  In a run of [seed_trade] where the order call answered, the result
    is what the classifier makes of the answer, and the report of the
    exception when the classifier raises on it. *)
Theorem seed_trade_classifies
  (w : world) (args : Args) (r : outcome pyval) (tr : trace)
  (c : call) (order_result : pyval) :
  run (do_seed_trade args) w = (r, tr) ->
  In (c, inr order_result) tr ->
  is_order c = true ->
  r = inr (match parse_order_result order_result with
           | inr result => result
           | inl e => exception_result e
           end).
Proof.
  unfold run, do_seed_trade, try_except, make_exchange.
  intros Hrun Hin Horder.
  do 4 (call_step Hrun; [finished Hrun; same_event Hin; discriminate|]).
  lift_step Hrun.
  { finished Hrun. same_event Hin; discriminate. }
  destruct (negb (py_eq_str a "ok")).
  { finished Hrun. same_event Hin; discriminate. }
  call_step Hrun; [finished Hrun; same_event Hin; discriminate|].
  unfold lift in Hrun.
  destruct (parse_order_result v3) eqn:Hparse; finished Hrun;
    same_event Hin; try discriminate; now rewrite Hparse.
Qed.

Lemma seed_trade_classifies_example :
  fst (run (do_seed_trade seed_args) filling_world)
  = inr (PDict [("status", PStr "filled");
                ("avg_price", PStr "67010.5");
                ("total_size", PStr "0.001")]).
Proof.
  refine (seed_trade_classifies filling_world seed_args _ _
            (order "BTC" true "0.001" "67000.0" ioc)
            (PDict [("status", PStr "ok");
                    ("response", PDict [("data", PDict [("statuses", PList [filled_entry])])])])
            eq_refl _ eq_refl).
  right. right. right. right. left. reflexivity.
Defined.

(** X7.  In a run of [seed_trade] where the leverage update answered
    something that is no [dict], the [.get] on it raises inside the [try]:
    the result is the error at step [exception] that names the missing
    method, and no order is placed. *)
Theorem seed_trade_leverage_response_not_dict
  (w : world) (args : Args) (lev : Z) (name : string) (cross : bool) (lev_result : pyval)
  (r : outcome pyval) (tr : trace) :
  run (do_seed_trade args) w = (r, tr) ->
  In (update_leverage lev name cross, inr lev_result) tr ->
  (forall d, lev_result <> PDict d) ->
  r = inr (PDict [("status", PStr "error");
                  ("step", PStr "exception");
                  ("detail", PStr ("'" ++ type_name lev_result
                                       ++ "' object has no attribute 'get'"))])
  /\ forall ev, In ev tr -> is_order (fst ev) = false.
Proof.
  unfold run, do_seed_trade, try_except, make_exchange.
  intros Hrun Hin Hnot.
  do 4 (call_step Hrun; [finished Hrun; same_event Hin|]).
  assert (Hget : forall v, v = lev_result ->
                           py_get v "status" PNone = inl (no_attribute v "get")).
  { intros v' ->. destruct lev_result; try reflexivity. now elim (Hnot entries). }
  lift_step Hrun.
  - finished Hrun. same_event Hin. rewrite (Hget _ eq_refl) in Hl. injection Hl as <-.
    split; [reflexivity|]. each_event; reflexivity.
  - assert (Hlev : v2 = lev_result).
    { destruct (negb (py_eq_str a "ok")).
      - finished Hrun. now same_event Hin.
      - call_step Hrun; [finished Hrun; now same_event Hin|].
        unfold lift in Hrun.
        destruct (parse_order_result v3); finished Hrun; now same_event Hin. }
    rewrite (Hget _ Hlev) in Hl. discriminate Hl.
Qed.

Lemma seed_trade_leverage_response_not_dict_example :
  fst (run (do_seed_trade seed_args) array_world)
  = inr (PDict [("status", PStr "error");
                ("step", PStr "exception");
                ("detail", PStr "'list' object has no attribute 'get'")])
  /\ forall ev, In ev (snd (run (do_seed_trade seed_args) array_world)) ->
                is_order (fst ev) = false.
Proof.
  refine (seed_trade_leverage_response_not_dict array_world seed_args 5 "BTC" true (PList [])
            _ _ eq_refl _ _).
  - right. right. right. left. reflexivity.
  - discriminate.
Defined.

(** ** All actions *)

(** X8.  Whatever the action, when one of the calls that build the client
    raised, no remote call was made: neither a leverage update nor an
    order. *)
Theorem no_remote_call_without_client
  (w : world) (args : Args) (r : outcome pyval) (tr : trace) (c : call) (e : exn) :
  run (dispatch args) w = (r, tr) ->
  In (c, inl e) tr ->
  is_construction c = true ->
  forall ev, In ev tr -> is_remote (fst ev) = false.
Proof.
  unfold run, dispatch. intros Hrun Hin Hc.
  destruct (String.eqb (action args) "set_leverage");
    [|destruct (String.eqb (action args) "seed_trade");
      [|destruct (String.eqb (action args) "close_position")]].
  - unfold do_set_leverage, try_except, make_exchange in Hrun.
    do 3 (call_step Hrun; [finished Hrun; each_event; reflexivity|]).
    call_step Hrun; [finished Hrun; same_event Hin; discriminate|].
    lift_step Hrun; [finished Hrun; same_event Hin|].
    destruct (py_eq_str a "ok"); finished Hrun; same_event Hin.
  - unfold do_seed_trade, try_except, make_exchange in Hrun.
    do 3 (call_step Hrun; [finished Hrun; each_event; reflexivity|]).
    call_step Hrun; [finished Hrun; same_event Hin; discriminate|].
    lift_step Hrun; [finished Hrun; same_event Hin|].
    destruct (negb (py_eq_str a "ok")); [finished Hrun; same_event Hin|].
    call_step Hrun; [finished Hrun; same_event Hin; discriminate|].
    unfold lift in Hrun.
    destruct (parse_order_result v3); finished Hrun; same_event Hin.
  - unfold do_close_position, try_except, make_exchange in Hrun.
    do 3 (call_step Hrun; [finished Hrun; each_event; reflexivity|]).
    call_step Hrun; [finished Hrun; same_event Hin; discriminate|].
    unfold lift in Hrun.
    destruct (parse_order_result v2); finished Hrun; same_event Hin.
  - finished Hrun. contradiction.
Qed.

Lemma no_remote_call_without_client_example :
  In (Account_from_key "0xabc", inl (Raise "ValueError" "bad key"))
     (snd (run (dispatch seed_args) bad_key_world))
  /\ forall ev, In ev (snd (run (dispatch seed_args) bad_key_world)) ->
                is_remote (fst ev) = false.
Proof.
  assert (Hin : In (Account_from_key "0xabc", inl (Raise "ValueError" "bad key"))
                   (snd (run (dispatch seed_args) bad_key_world)))
    by (right; left; reflexivity).
  split; [exact Hin|].
  exact (no_remote_call_without_client bad_key_world seed_args _ _ _ _ eq_refl Hin eq_refl).
Defined.

(** X15.  Whatever the action, a remote call is made only once the client
    is built: the run starts with the import, [Account.from_key] on the key
    and [Exchange] on the URL of the command line, each of which answered. *)
Theorem remote_call_after_make_exchange
  (w : world) (args : Args) (r : outcome pyval) (tr : trace) (c : call) (a : outcome pyval) :
  run (dispatch args) w = (r, tr) ->
  In (c, a) tr ->
  is_remote c = true ->
  exists imported account exchange later,
    tr = (import_Exchange, inr imported)
         :: (Account_from_key args.(key), inr account)
         :: (Exchange_init args.(hl_url), inr exchange)
         :: later.
Proof.
  unfold run, dispatch. intros Hrun Hin Hc.
  destruct (String.eqb (action args) "set_leverage");
    [|destruct (String.eqb (action args) "seed_trade");
      [|destruct (String.eqb (action args) "close_position")]].
  - unfold do_set_leverage, try_except, make_exchange in Hrun.
    do 3 (call_step Hrun; [finished Hrun; same_event Hin; discriminate|]).
    call_step Hrun; [finished Hrun; repeat eexists|].
    lift_step Hrun; [finished Hrun; repeat eexists|].
    destruct (py_eq_str a0 "ok"); finished Hrun; repeat eexists.
  - unfold do_seed_trade, try_except, make_exchange in Hrun.
    do 3 (call_step Hrun; [finished Hrun; same_event Hin; discriminate|]).
    call_step Hrun; [finished Hrun; repeat eexists|].
    lift_step Hrun; [finished Hrun; repeat eexists|].
    destruct (negb (py_eq_str a0 "ok")); [finished Hrun; repeat eexists|].
    call_step Hrun; [finished Hrun; repeat eexists|].
    unfold lift in Hrun.
    destruct (parse_order_result v3); finished Hrun; repeat eexists.
  - unfold do_close_position, try_except, make_exchange in Hrun.
    do 3 (call_step Hrun; [finished Hrun; same_event Hin; discriminate|]).
    call_step Hrun; [finished Hrun; repeat eexists|].
    unfold lift in Hrun.
    destruct (parse_order_result v2); finished Hrun; repeat eexists.
  - finished Hrun. contradiction.
Qed.

Lemma remote_call_after_make_exchange_example :
  exists imported account exchange later,
    snd (run (dispatch seed_args) filling_world)
    = (import_Exchange, inr imported)
      :: (Account_from_key "0xabc", inr account)
      :: (Exchange_init "https://api.hyperliquid.xyz", inr exchange)
      :: later.
Proof.
  refine (remote_call_after_make_exchange filling_world seed_args _ _
            (update_leverage 5 "BTC" true) (inr (PDict [("status", PStr "ok")]))
            eq_refl _ eq_refl).
  right. right. right. left. reflexivity.
Defined.

(** What the two fields are on a result whose status and step are known
    texts. *)
Ltac schema_known :=
  split;
  [ eexists; split; [reflexivity | simpl; tauto]
  | first [ discriminate
          | intros _; split; [reflexivity |];
            eexists; split; [reflexivity | simpl; tauto] ] ].

Lemma parse_order_result_in_schema (order_result result : pyval) :
  parse_order_result order_result = inr result -> in_schema result.
Proof.
  unfold parse_order_result.
  destruct (py_get order_result "status" PNone) as [e|status]; [discriminate|].
  cbn [bind_outcome].
  destruct (py_eq_str status "ok"); [|intros [= <-]; schema_known].
  destruct (statuses_of order_result) as [e|statuses]; [discriminate|].
  cbn [bind_outcome].
  destruct (first_has statuses "filled") as [e|[|]]; [discriminate | |]; cbn [bind_outcome].
  - destruct (py_first statuses) as [e|first]; [discriminate|]. cbn [bind_outcome].
    destruct (py_item first "filled") as [e|fill]; [discriminate|]. cbn [bind_outcome].
    destruct (py_get fill "avgPx" (PStr "0")) as [e|avg]; [discriminate|]. cbn [bind_outcome].
    destruct (py_get fill "totalSz" (PStr "0")) as [e|total]; [discriminate|].
    intros [= <-]. schema_known.
  - destruct (first_has statuses "resting") as [e|[|]]; [discriminate | |]; cbn [bind_outcome].
    + destruct (py_first statuses) as [e|first]; [discriminate|].
      intros [= <-]. schema_known.
    + destruct (first_has statuses "error") as [e|[|]]; [discriminate | |]; cbn [bind_outcome].
      * destruct (py_first statuses) as [e|first]; [discriminate|]. cbn [bind_outcome].
        destruct (py_item first "error") as [e|detail]; [discriminate|].
        intros [= <-]. schema_known.
      * intros [= <-]. schema_known.
Qed.

(** X9.  Whatever the action, the world and the command line, [main] gets a
    result back, never an exception: a [dict] whose [status] is one of [ok],
    [error], [filled], [resting], [no_fill], and which has a [step] only when
    it is an error, the step being one of [set_leverage], [place_order],
    [order_rejected], [exception]. *)
Theorem dispatch_in_schema (w : world) (args : Args) :
  exists result, fst (run (dispatch args) w) = inr result /\ in_schema result.
Proof.
  destruct (run (dispatch args) w) as [r tr] eqn:Hrun. cbn [fst].
  unfold run, dispatch in Hrun.
  destruct (String.eqb (action args) "set_leverage");
    [|destruct (String.eqb (action args) "seed_trade");
      [|destruct (String.eqb (action args) "close_position")]].
  - unfold do_set_leverage, try_except, make_exchange in Hrun.
    do 4 (call_step Hrun; [finished Hrun; eexists; split; [reflexivity | schema_known]|]).
    lift_step Hrun; [finished Hrun; eexists; split; [reflexivity | schema_known]|].
    destruct (py_eq_str a "ok"); finished Hrun;
      (eexists; split; [reflexivity | schema_known]).
  - unfold do_seed_trade, try_except, make_exchange in Hrun.
    do 4 (call_step Hrun; [finished Hrun; eexists; split; [reflexivity | schema_known]|]).
    lift_step Hrun; [finished Hrun; eexists; split; [reflexivity | schema_known]|].
    destruct (negb (py_eq_str a "ok"));
      [finished Hrun; eexists; split; [reflexivity | schema_known]|].
    call_step Hrun; [finished Hrun; eexists; split; [reflexivity | schema_known]|].
    unfold lift in Hrun.
    destruct (parse_order_result v3) eqn:Hparse; finished Hrun.
    + eexists; split; [reflexivity | schema_known].
    + eexists; split; [reflexivity | exact (parse_order_result_in_schema _ _ Hparse)].
  - unfold do_close_position, try_except, make_exchange in Hrun.
    do 4 (call_step Hrun; [finished Hrun; eexists; split; [reflexivity | schema_known]|]).
    unfold lift in Hrun.
    destruct (parse_order_result v2) eqn:Hparse; finished Hrun.
    + eexists; split; [reflexivity | schema_known].
    + eexists; split; [reflexivity | exact (parse_order_result_in_schema _ _ Hparse)].
  - finished Hrun. eexists; split; [reflexivity | schema_known].
Qed.

(** * Further properties of the classifier *)

(** X10.  A response with top-level status ["ok"] whose first per-order
    status entry has a ["resting"] key and no ["filled"] key is classified as
    [resting], with [str] of that entry as detail, whether or not the entry
    has an ["error"] key too. *)
Theorem parse_order_result_resting_entry
  (d e : dict) (rest : list pyval) (resting : pyval) :
  lookup "status" d = Some (PStr "ok") ->
  statuses_of (PDict d) = inr (PList (PDict e :: rest)) ->
  lookup "filled" e = None ->
  lookup "resting" e = Some resting ->
  parse_order_result (PDict d)
  = inr (PDict [("status", PStr "resting"); ("detail", PStr (py_str (PDict e)))]).
Proof.
  intros Hstatus Hstatuses Hfilled Hresting.
  enter_ok Hstatus Hstatuses.
  rewrite !first_has_cons, !py_contains_dict, Hfilled, Hresting.
  reflexivity.
Qed.

Lemma parse_order_result_resting_entry_example :
  parse_order_result
    (ok_response [PDict [("error", PStr "late"); ("resting", PDict [("oid", PInt 77738308)])]])
  = inr (PDict [("status", PStr "resting");
                ("detail", PStr "{'error': 'late', 'resting': {'oid': 77738308}}")]).
Proof.
  exact (parse_order_result_resting_entry
           [("status", PStr "ok");
            ("response",
             PDict [("type", PStr "order");
                    ("data",
                     PDict [("statuses",
                             PList [PDict [("error", PStr "late");
                                           ("resting", PDict [("oid", PInt 77738308)])]])])])]
           [("error", PStr "late"); ("resting", PDict [("oid", PInt 77738308)])]
           [] (PDict [("oid", PInt 77738308)])
           eq_refl eq_refl eq_refl eq_refl).
Defined.

(** X11.  A response with top-level status ["ok"] whose first per-order
    status entry has under ["filled"] something that is no [dict]: the
    classifier raises the [AttributeError] of the missing [.get]; it does not
    go on to the other branches. *)
Theorem parse_order_result_filled_not_record
  (d e : dict) (rest : list pyval) (fill : pyval) :
  lookup "status" d = Some (PStr "ok") ->
  statuses_of (PDict d) = inr (PList (PDict e :: rest)) ->
  lookup "filled" e = Some fill ->
  (forall record, fill <> PDict record) ->
  parse_order_result (PDict d)
  = inl (Raise "AttributeError"
               ("'" ++ type_name fill ++ "' object has no attribute 'get'")).
Proof.
  intros Hstatus Hstatuses Hfilled Hnot.
  enter_ok Hstatus Hstatuses.
  rewrite first_has_cons, py_contains_dict, Hfilled.
  cbn [bind_outcome py_first py_item]. rewrite Hfilled. cbn [bind_outcome].
  destruct fill; try reflexivity. now elim (Hnot entries).
Qed.

Lemma parse_order_result_filled_not_record_example :
  parse_order_result
    (ok_response [PDict [("filled", PBool true); ("error", PStr "late")]])
  = inl (Raise "AttributeError" "'bool' object has no attribute 'get'").
Proof.
  refine (parse_order_result_filled_not_record
            [("status", PStr "ok");
             ("response",
              PDict [("type", PStr "order");
                     ("data",
                      PDict [("statuses",
                              PList [PDict [("filled", PBool true);
                                            ("error", PStr "late")]])])])]
            [("filled", PBool true); ("error", PStr "late")]
            [] (PBool true) eq_refl eq_refl eq_refl _).
  discriminate.
Defined.

(** X12.  A response with top-level status ["ok"] whose ["statuses"] is
    there but falsy ([null], [false], a zero, an empty text, list or object)
    is classified as [no_fill], with [str] of that value as detail. *)
Theorem parse_order_result_falsy_statuses (d : dict) (statuses : pyval) :
  lookup "status" d = Some (PStr "ok") ->
  statuses_of (PDict d) = inr statuses ->
  truthy statuses = false ->
  parse_order_result (PDict d)
  = inr (PDict [("status", PStr "no_fill"); ("detail", PStr (py_str statuses))]).
Proof.
  intros Hstatus Hstatuses Hfalsy.
  apply parse_order_result_falls_through; trivial;
    unfold first_has; now rewrite Hfalsy.
Qed.

Lemma parse_order_result_falsy_statuses_example :
  parse_order_result
    (PDict [("status", PStr "ok");
            ("response", PDict [("data", PDict [("statuses", PNone)])])])
  = inr (PDict [("status", PStr "no_fill"); ("detail", PStr "None")]).
Proof.
  exact (parse_order_result_falsy_statuses
           [("status", PStr "ok");
            ("response", PDict [("data", PDict [("statuses", PNone)])])]
           PNone eq_refl eq_refl eq_refl).
Defined.

(** X13.  A first per-order status entry that is a text is searched for the
    words as pieces of it.  With ["filled"] in it the classifier raises a
    [TypeError] (a text has no item ["filled"]); with ["resting"] and not
    ["filled"] in it the result is [resting] with the text as detail. *)
Theorem parse_order_result_text_entry (d : dict) (entry : string) (rest : list pyval) :
  lookup "status" d = Some (PStr "ok") ->
  statuses_of (PDict d) = inr (PList (PStr entry :: rest)) ->
  (substring_of "filled" entry = true ->
   exists e, parse_order_result (PDict d) = inl e /\ exn_class e = "TypeError")
  /\ (substring_of "filled" entry = false ->
      substring_of "resting" entry = true ->
      parse_order_result (PDict d)
      = inr (PDict [("status", PStr "resting"); ("detail", PStr entry)])).
Proof.
  intros Hstatus Hstatuses. split.
  - intros Hfilled. enter_ok Hstatus Hstatuses.
    rewrite first_has_cons. cbn [py_contains bind_outcome]. rewrite Hfilled.
    eexists. split; reflexivity.
  - intros Hfilled Hresting. enter_ok Hstatus Hstatuses.
    rewrite !first_has_cons. cbn [py_contains bind_outcome].
    rewrite Hfilled, Hresting. reflexivity.
Qed.

Lemma parse_order_result_text_entry_example :
  (exists e, parse_order_result (ok_response [PStr "filled"]) = inl e
             /\ exn_class e = "TypeError")
  /\ parse_order_result (ok_response [PStr "resting"])
     = inr (PDict [("status", PStr "resting"); ("detail", PStr "resting")]).
Proof.
  split.
  - refine (proj1 (parse_order_result_text_entry
                     [("status", PStr "ok");
                      ("response", PDict [("type", PStr "order");
                                          ("data", PDict [("statuses", PList [PStr "filled"])])])]
                     "filled" [] eq_refl eq_refl) eq_refl).
  - refine (proj2 (parse_order_result_text_entry
                     [("status", PStr "ok");
                      ("response", PDict [("type", PStr "order");
                                          ("data", PDict [("statuses", PList [PStr "resting"])])])]
                     "resting" [] eq_refl eq_refl) eq_refl eq_refl).
Defined.

(** * The output line *)

(** Induction on a value, its items and entries included. *)
Lemma pyval_nested_ind (P : pyval -> Prop) :
  P PNone ->
  (forall b, P (PBool b)) ->
  (forall n, P (PInt n)) ->
  (forall r, P (PFloat r)) ->
  (forall s, P (PStr s)) ->
  (forall items, Forall P items -> P (PList items)) ->
  (forall entries, Forall (fun kv => P (snd kv)) entries -> P (PDict entries)) ->
  forall v, P v.
Proof.
  intros HNone HBool HInt HFloat HStr HList HDict.
  fix IH 1. intros [ | b | n | r | s | items | entries].
  - exact HNone.
  - apply HBool.
  - apply HInt.
  - apply HFloat.
  - apply HStr.
  - apply HList. induction items as [|x items IHitems]; constructor.
    + apply IH.
    + exact IHitems.
  - apply HDict. induction entries as [|[k x] entries IHentries]; constructor.
    + apply IH.
    + exact IHentries.
Qed.

Lemma printable_app (a b : string) :
  printable (a ++ b) = printable a && printable b.
Proof.
  induction a as [|c a IH]; [reflexivity|].
  simpl. rewrite IH. now rewrite andb_assoc.
Qed.

Lemma printable_join (parts : list string) :
  Forall (fun p => printable p = true) parts -> printable (join_comma parts) = true.
Proof.
  induction 1 as [|p parts Hp Hparts IH]; [reflexivity|].
  destruct parts as [|q parts]; [exact Hp|].
  change (join_comma (p :: q :: parts)) with (p ++ ", " ++ join_comma (q :: parts)).
  rewrite !printable_app, Hp, IH. reflexivity.
Qed.

Lemma json_char_printable (c : ascii) : printable (json_char c) = true.
Proof.
  revert c. apply every_char_spec. vm_compute. reflexivity.
Qed.

Lemma json_string_printable (s : string) : printable (json_string s) = true.
Proof.
  unfold json_string.
  change (String dquote (json_chars s ++ str1 dquote))
    with (str1 dquote ++ json_chars s ++ str1 dquote).
  rewrite !printable_app. cbn [printable str1].
  replace (printable (json_chars s)) with true; [reflexivity|].
  induction s as [|c s IH]; [reflexivity|].
  cbn [json_chars]. now rewrite printable_app, json_char_printable, <- IH.
Qed.

Lemma json_float_printable (r : string) :
  printable r = true -> printable (json_float r) = true.
Proof.
  intros Hr. unfold json_float.
  repeat match goal with |- context [if ?b then _ else _] => destruct b end;
    trivial.
Qed.

Lemma repr_int_printable (n : Z) : printable (repr_int n) = true.
Proof.
  assert (Huint : forall d, printable (NilEmpty.string_of_uint d) = true)
    by (induction d; simpl; trivial).
  assert (Hzero : forall d, printable (NilZero.string_of_uint d) = true)
    by (intros [ | | | | | | | | | | ]; trivial; apply Huint).
  unfold repr_int, NilZero.string_of_int.
  destruct (Z.to_int n); [apply Hzero|].
  cbn [printable]. now rewrite Hzero.
Qed.

(** The text of [json.dumps] is printable ASCII, whatever the characters of
    the texts inside the value. *)
Lemma json_dumps_printable (v : pyval) :
  floats_printable v = true -> printable (json_dumps v) = true.
Proof.
  induction v as [ | b | n | r | s | items IH | entries IH] using pyval_nested_ind;
    intros Hfloats.
  - reflexivity.
  - now destruct b.
  - apply repr_int_printable.
  - now apply json_float_printable.
  - apply json_string_printable.
  - cbn [json_dumps]. rewrite !printable_app, printable_join; [reflexivity|].
    cbn [floats_printable] in Hfloats. rewrite forallb_forall in Hfloats.
    rewrite Forall_forall in IH |- *.
    intros p Hp. apply in_map_iff in Hp as (x & <- & Hx). auto.
  - cbn [json_dumps]. rewrite !printable_app, printable_join; [reflexivity|].
    cbn [floats_printable] in Hfloats. rewrite forallb_forall in Hfloats.
    rewrite Forall_forall in IH |- *.
    intros p Hp. apply in_map_iff in Hp as ([k x] & <- & Hx).
    cbn [fst snd]. rewrite !printable_app, json_string_printable.
    cbn [printable andb]. exact (IH _ Hx (Hfloats _ Hx)).
Qed.

(** What the classifier and the actions return holds no float but those of
    the answers. *)
Lemma lookup_floats (d : dict) (k : string) (x : pyval) :
  floats_printable (PDict d) = true -> lookup k d = Some x -> floats_printable x = true.
Proof.
  cbn [floats_printable]. induction d as [|[k' y] d IH]; [discriminate|].
  cbn [forallb lookup snd]. intros Hd. apply andb_prop in Hd as [Hy Hd].
  destruct (String.eqb k' k); [now intros [= <-] | now apply IH].
Qed.

Lemma py_get_floats (v default x : pyval) (k : string) :
  floats_printable v = true -> floats_printable default = true ->
  py_get v k default = inr x -> floats_printable x = true.
Proof.
  intros Hv Hdefault. destruct v; try discriminate.
  rewrite py_get_dict. intros [= <-].
  destruct (lookup k entries) eqn:Hk; [exact (lookup_floats _ _ _ Hv Hk) | exact Hdefault].
Qed.

Lemma py_first_floats (v x : pyval) :
  floats_printable v = true -> py_first v = inr x -> floats_printable x = true.
Proof.
  intros Hv. destruct v as [ | | | | [|c s] | [|y items] | ]; try discriminate.
  - now intros [= <-].
  - intros [= <-]. cbn [floats_printable forallb] in Hv. now apply andb_prop in Hv.
Qed.

Lemma py_item_floats (v x : pyval) (k : string) :
  floats_printable v = true -> py_item v k = inr x -> floats_printable x = true.
Proof.
  intros Hv. destruct v; try discriminate. cbn [py_item].
  destruct (lookup k entries) eqn:Hk; [|discriminate].
  intros [= <-]. exact (lookup_floats _ _ _ Hv Hk).
Qed.

Lemma statuses_of_floats (order_result statuses : pyval) :
  floats_printable order_result = true ->
  statuses_of order_result = inr statuses -> floats_printable statuses = true.
Proof.
  intros Ho. unfold statuses_of.
  destruct (py_get order_result "response" (PDict [])) as [e|response] eqn:Hr;
    [discriminate|].
  cbn [bind_outcome].
  destruct (py_get response "data" (PDict [])) as [e|data] eqn:Hd; [discriminate|].
  cbn [bind_outcome]. intros Hs.
  apply (py_get_floats _ (PDict []) _ _ Ho eq_refl) in Hr.
  apply (py_get_floats _ (PDict []) _ _ Hr eq_refl) in Hd.
  exact (py_get_floats _ (PList []) _ _ Hd eq_refl Hs).
Qed.

Lemma parse_order_result_floats (order_result result : pyval) :
  floats_printable order_result = true ->
  parse_order_result order_result = inr result -> floats_printable result = true.
Proof.
  intros Ho. unfold parse_order_result.
  destruct (py_get order_result "status" PNone) as [e|status]; [discriminate|].
  cbn [bind_outcome].
  destruct (py_eq_str status "ok"); [|now intros [= <-]].
  destruct (statuses_of order_result) as [e|statuses] eqn:Hstatuses; [discriminate|].
  apply (statuses_of_floats _ _ Ho) in Hstatuses.
  cbn [bind_outcome].
  destruct (first_has statuses "filled") as [e|[|]]; [discriminate | |]; cbn [bind_outcome].
  - destruct (py_first statuses) as [e|first] eqn:Hfirst; [discriminate|].
    apply (py_first_floats _ _ Hstatuses) in Hfirst. cbn [bind_outcome].
    destruct (py_item first "filled") as [e|fill] eqn:Hfill; [discriminate|].
    apply (py_item_floats _ _ _ Hfirst) in Hfill. cbn [bind_outcome].
    destruct (py_get fill "avgPx" (PStr "0")) as [e|avg] eqn:Havg; [discriminate|].
    apply (py_get_floats _ (PStr "0") _ _ Hfill eq_refl) in Havg. cbn [bind_outcome].
    destruct (py_get fill "totalSz" (PStr "0")) as [e|total] eqn:Htotal; [discriminate|].
    apply (py_get_floats _ (PStr "0") _ _ Hfill eq_refl) in Htotal.
    intros [= <-]. cbn [floats_printable forallb snd]. now rewrite Havg, Htotal.
  - destruct (first_has statuses "resting") as [e|[|]]; [discriminate | |]; cbn [bind_outcome].
    + destruct (py_first statuses) as [e|first]; [discriminate|]. now intros [= <-].
    + destruct (first_has statuses "error") as [e|[|]]; [discriminate | |]; cbn [bind_outcome].
      * destruct (py_first statuses) as [e|first] eqn:Hfirst; [discriminate|].
        apply (py_first_floats _ _ Hstatuses) in Hfirst. cbn [bind_outcome].
        destruct (py_item first "error") as [e|detail] eqn:Hdetail; [discriminate|].
        apply (py_item_floats _ _ _ Hfirst) in Hdetail.
        intros [= <-]. cbn [floats_printable forallb snd]. now rewrite Hdetail.
      * now intros [= <-].
Qed.

Lemma dispatch_floats (w : world) (args : Args) :
  tidy_world w ->
  exists result,
    fst (run (dispatch args) w) = inr result /\ floats_printable result = true.
Proof.
  intros Htidy.
  destruct (run (dispatch args) w) as [r tr] eqn:Hrun. cbn [fst].
  unfold run, dispatch in Hrun.
  destruct (String.eqb (action args) "set_leverage");
    [|destruct (String.eqb (action args) "seed_trade");
      [|destruct (String.eqb (action args) "close_position")]].
  - unfold do_set_leverage, try_except, make_exchange in Hrun.
    do 4 (call_step Hrun; [finished Hrun; eexists; split; reflexivity|]).
    lift_step Hrun; [finished Hrun; eexists; split; reflexivity|].
    destruct (py_eq_str a "ok"); finished Hrun; eexists; split; reflexivity.
  - unfold do_seed_trade, try_except, make_exchange in Hrun.
    do 4 (call_step Hrun; [finished Hrun; eexists; split; reflexivity|]).
    lift_step Hrun; [finished Hrun; eexists; split; reflexivity|].
    destruct (negb (py_eq_str a "ok")); [finished Hrun; eexists; split; reflexivity|].
    call_step Hrun; [finished Hrun; eexists; split; reflexivity|].
    unfold lift in Hrun.
    destruct (parse_order_result v3) eqn:Hparse; finished Hrun;
      (eexists; split; [reflexivity|]); [reflexivity|].
    exact (parse_order_result_floats _ _ (Htidy _ _ _ Hw3) Hparse).
  - unfold do_close_position, try_except, make_exchange in Hrun.
    do 4 (call_step Hrun; [finished Hrun; eexists; split; reflexivity|]).
    unfold lift in Hrun.
    destruct (parse_order_result v2) eqn:Hparse; finished Hrun;
      (eexists; split; [reflexivity|]); [reflexivity|].
    exact (parse_order_result_floats _ _ (Htidy _ _ _ Hw2) Hparse).
  - finished Hrun. eexists; split; reflexivity.
Qed.

(** X14.  Whatever the action and the command line, [main] makes no call
    after the action and writes [json.dumps] of the action's result and the
    newline of [print]; when the answers of the client library hold floats
    with a printable text only, that is one line: the text of [json.dumps] is
    printable ASCII, with no line break inside whatever the texts of the
    result hold. *)
Theorem main_output_one_line (w : world) (args : Args) :
  tidy_world w ->
  exists result,
    fst (run (dispatch args) w) = inr result
    /\ fst (run (main_output args) w) = inr (json_dumps result ++ str1 newline)
    /\ snd (run (main_output args) w) = snd (run (dispatch args) w)
    /\ printable (json_dumps result) = true.
Proof.
  intros Htidy.
  destruct (dispatch_floats w args Htidy) as (result & Hresult & Hfloats).
  exists result. split; [exact Hresult|].
  assert (Hline : printable (json_dumps result) = true)
    by now apply json_dumps_printable.
  unfold run, main_output, bind in *.
  destruct (dispatch args w []) as [[e|v] tr]; cbn [fst] in Hresult;
    [discriminate|].
  injection Hresult as ->. repeat split. exact Hline.
Qed.

Lemma filling_world_tidy : tidy_world filling_world.
Proof.
  intros tr c v. destruct c; intros [= <-]; reflexivity.
Defined.

Lemma main_output_one_line_example :
  exists result,
    fst (run (dispatch seed_args) filling_world) = inr result
    /\ fst (run (main_output seed_args) filling_world)
       = inr (json_dumps result ++ str1 newline)
    /\ snd (run (main_output seed_args) filling_world)
       = snd (run (dispatch seed_args) filling_world)
    /\ printable (json_dumps result) = true.
Proof.
  exact (main_output_one_line filling_world seed_args filling_world_tidy).
Defined.

(** The line of a fill, and a detail with a quote and a line break in it. *)
Example main_output_filled :
  fst (run (main_output seed_args) filling_world)
  = inr ("{" ++ String dquote "status" ++ String dquote ": "
             ++ String dquote "filled" ++ String dquote ", "
             ++ String dquote "avg_price" ++ String dquote ": "
             ++ String dquote "67010.5" ++ String dquote ", "
             ++ String dquote "total_size" ++ String dquote ": "
             ++ String dquote "0.001" ++ String dquote "}" ++ str1 newline).
Proof. reflexivity. Qed.

Example json_dumps_detail :
  json_dumps (PStr ("no " ++ String dquote "fill" ++ String dquote (String newline "yet")))
  = String dquote "no " ++ String backslash (String dquote "fill")
      ++ String backslash (String dquote (String backslash "nyet")) ++ str1 dquote.
Proof. reflexivity. Qed.
